(** * Atlas Verify: the analysis run of [src/app/page.tsx]

    A shallow embedding of [runAnalysis], the only function of the page that
    carries logic: it collects one extraction per recognised document, picks
    the best document, reconciles it with the applicant's declaration
    (the cross-checks) and hands everything to the report builder.

    Conventions of the embedding.
    - A JavaScript number is a binary64 float ([PrimFloat.float]); [>] is
      [PrimFloat.ltb] with its arguments swapped, so comparisons with NaN are
      false as in JavaScript.
    - A JavaScript string is the list of its UTF-16 code units
      ([JsString.t]); a literal of the page is written as a [string] and
      read through [JsString.lit].  White space is the white space of
      ECMAScript.  Of the Unicode case table the ASCII part is written out;
      the rest is the runtime's and a parameter ([upperCaseOther]).
    - React state is a record ([AppState]); a state setter is a function on
      it.  The closure of [runAnalysis] reads the state it was created with
      and writes through setters, and so does the model.
    - An exception is a value of [Thrown]; a call that may throw returns a sum.
      An [await] is a call: the run is followed from its first statement to
      its last with no other event in between (the progress messages of the
      recogniser, which only write [ocrProgress], are left out).
    - The modules under [src/lib] (MRZ parser, field extractor, policy engine,
      report builder, name similarity) are imported by the page and are its
      interface [Lib].  They are functions, total as the spec has them
      (sections 4.1, 4.2, 4.4), but for [parsePolicy], which may throw;
      nothing else is assumed about them. *)

From Stdlib Require Import List String Ascii NArith ZArith Bool Lia Floats DecimalString.
Import ListNotations.
#[local] Open Scope string_scope.
#[local] Set Warnings "-inexact-float".

(** ** JavaScript built-ins used by the page *)

Module JsString.

(** A string: its UTF-16 code units, in order. *)
Definition t : Type := list N.

(** A string literal of the page; they are all ASCII, one code unit a
    character. *)
Definition lit (s : string) : t := List.map N_of_ascii (list_ascii_of_string s).

(** [a + b], and the pieces of a template literal put together. *)
Definition concat (a b : t) : t := (a ++ b)%list.

(** [a === b] on strings: the same code units. *)
Fixpoint eqb (a b : t) : bool :=
  match a, b with
  | [], [] => true
  | x :: a', y :: b' => N.eqb x y && eqb a' b'
  | _, _ => false
  end.


(** White space of [String.prototype.trim] and of the class [\s]: the
    WhiteSpace and LineTerminator code points of ECMAScript, which are
    U+0009 to U+000D, U+0020, U+00A0, U+1680, U+2000 to U+200A, U+2028,
    U+2029, U+202F, U+205F, U+3000 and U+FEFF.  Each is one code unit. *)
Definition isWhiteSpace (c : N) : bool :=
  ((0x9 <=? c) && (c <=? 0xD)
   || (c =? 0x20) || (c =? 0xA0) || (c =? 0x1680)
   || (0x2000 <=? c) && (c <=? 0x200A)
   || (c =? 0x2028) || (c =? 0x2029) || (c =? 0x202F) || (c =? 0x205F)
   || (c =? 0x3000) || (c =? 0xFEFF))%N.

(** What the class [[A-Z]] with the flag [i] (and no flag [u]) matches: a
    code unit whose canonical form is one of A-Z.  The canonical form of an
    ASCII code unit is its upper case, and a code unit that is not ASCII is
    never given an ASCII canonical form, so these are the letters A-Z and
    a-z. *)
Definition isLetter (c : N) : bool :=
  ((0x41 <=? c) && (c <=? 0x5A) || (0x61 <=? c) && (c <=? 0x7A))%N.

Definition isAscii (c : N) : bool := (c <? 0x80)%N.

(** The upper case of an ASCII code unit: a-z go to A-Z, the others are
    left. *)
Definition upperAscii (c : N) : N :=
  if ((0x61 <=? c) && (c <=? 0x7A))%N then (c - 0x20)%N else c.

Fixpoint trimStart (s : t) : t :=
  match s with
  | [] => []
  | c :: s' => if isWhiteSpace c then trimStart s' else s
  end.

Fixpoint trimEnd (s : t) : t :=
  match s with
  | [] => []
  | c :: s' =>
      match trimEnd s' with
      | [] => if isWhiteSpace c then [] else [c]
      | r => c :: r
      end
  end.

(** [s.trim()] *)
Definition trim (s : t) : t := trimEnd (trimStart s).

(** [s.replace(/\s+/g, "")]: every run of white space is deleted. *)
Definition removeWhiteSpace (s : t) : t :=
  List.filter (fun c => negb (isWhiteSpace c)) s.

(** [s.replace(/[^A-Z]/gi, "")]: every code unit that is not a letter A-Z or
    a-z is deleted. *)
Definition removeNonLetters (s : t) : t := List.filter isLetter s.

(** The upper case of a run of code units none of which is ASCII, by
    [upperOther]; the empty run stays empty. *)
Definition upperRun (upperOther : t -> t) (run : t) : t :=
  match run with
  | [] => []
  | _ :: _ => upperOther run
  end.

(** [s.toUpperCase()] after the code units [run], none of them ASCII, that
    stand before [s] and are not yet upper-cased. *)
Fixpoint upperFrom (upperOther : t -> t) (run s : t) : t :=
  match s with
  | [] => upperRun upperOther run
  | c :: s' =>
      if isAscii c
      then (upperRun upperOther run ++ upperAscii c :: upperFrom upperOther [] s')%list
      else upperFrom upperOther (run ++ [c])%list s'
  end.

(** [s.toUpperCase()].  The Unicode case table maps one code point at a
    time, whatever stands around it, and an ASCII code unit is a code point
    of its own; so the string is upper-cased piece by piece: an ASCII code
    unit by [upperAscii], each run of other code units between two of them by
    [upperOther], which is [toUpperCase] of the runtime on strings with no
    ASCII code unit. *)
Definition toUpperCase (upperOther : t -> t) (s : t) : t := upperFrom upperOther [] s.

(** [s.substring(n, n + m)] *)
Definition substring (n m : nat) (s : t) : t := firstn m (skipn n s).

(** A string in a condition: the empty string is falsy. *)
Definition truthy (s : t) : bool :=
  match s with [] => false | _ :: _ => true end.

End JsString.

Coercion JsString.lit : string >-> JsString.t.

Declare Scope js_scope.
Delimit Scope js_scope with js.
Bind Scope js_scope with JsString.t.
Notation "a ++ b" := (JsString.concat a b) : js_scope.
#[local] Open Scope js_scope.

Module JsNumber.

#[local] Open Scope float_scope.

(** [x > y] *)
Definition gt (x y : float) : bool := PrimFloat.ltb y x.

(** [Math.round(x)]: the integer nearest to [x], the larger one on a tie.  A
    float whose exponent is not negative is an integer already; zeros,
    infinities and NaN are returned as they are; a negative [x] that rounds
    to zero gives [-0]. *)
Definition Math_round (x : float) : float :=
  match Prim2SF x with
  | S754_finite sx m e =>
      if (0 <=? e)%Z then x
      else
        let d := (2 ^ (- e))%Z in
        if sx then - of_uint63 (Uint63.of_Z ((2 * Zpos m + d - 1) / (2 * d)))
        else of_uint63 (Uint63.of_Z ((2 * Zpos m + d) / (2 * d)))
  | _ => x
  end.

Definition decimal (n : Z) : JsString.t :=
  JsString.lit (NilZero.string_of_uint (N.to_uint (Z.to_N n))).

(** The integer [n] with [n / 10 - |x|] nearest to zero, the larger one on a
    tie, for the finite non-zero float of mantissa [m] and exponent [e]. *)
Definition nearestTenth (m : positive) (e : Z) : Z :=
  if (0 <=? e)%Z then 10 * Zpos m * 2 ^ e
  else let d := (2 ^ (- e))%Z in (20 * Zpos m + d) / (2 * d).

(** The digits of [n] with a point before the last one, a zero in front
    when there is one digit only. *)
Definition pointBeforeLast (n : Z) : JsString.t :=
  let m := decimal n in
  let m := if (List.length m <=? 1)%nat then "0" ++ m else m in
  let k := List.length m in
  JsString.substring 0 (k - 1) m ++ "." ++ JsString.substring (k - 1) 1 m.

(** [x.toFixed(1)].  [toString] is [Number::toString], which [toFixed]
    returns for NaN, the infinities and magnitudes from 1e21 on. *)
Definition toFixed1 (toString : float -> JsString.t) (x : float) : JsString.t :=
  match Prim2SF x with
  | S754_zero _ => "0.0"
  | S754_finite sx m e =>
      if 1e21 <=? abs x then (if sx then "-" else "") ++ toString (abs x)
      else (if sx then "-" else "") ++ pointBeforeLast (nearestTenth m e)
  | _ => toString x
  end.

End JsNumber.

Module JsArray.

(** [xs.reduce(f)] with no initial value: a [TypeError] on the empty array
    ([None]), otherwise the fold from the first element over the rest. *)
Definition reduce {A : Type} (f : A -> A -> A) (xs : list A) : option A :=
  match xs with
  | [] => None
  | x :: rest => Some (fold_left f rest x)
  end.

End JsArray.

(** What a [catch] clause receives: an [Error] object with its message, or
    any other value. *)
Inductive Thrown : Type :=
  | ErrorObject (message : JsString.t)
  | OtherValue.

(** ** Data model *)

(** Modelled from the spec: the types [DocumentExtraction] and its field
    values are declared in [src/lib/extraction], which is not among the
    sources; the page reads [confidence], [fields.<name>?.value] and
    [fields.<name>?.confidence].  A FieldValue is a (value, confidence) pair;
    an extraction maps the field names surname, givenNames, documentNumber,
    nationality, birthDate, sex, expiryDate, documentType to field values,
    absent fields omitted, and has an aggregate confidence. *)
Module FieldValue.
Record t : Type := mk { value : JsString.t; confidence : float }.
End FieldValue.

Module Fields.
Record t : Type := mk {
  surname : option FieldValue.t;
  givenNames : option FieldValue.t;
  documentNumber : option FieldValue.t;
  nationality : option FieldValue.t;
  birthDate : option FieldValue.t;
  sex : option FieldValue.t;
  expiryDate : option FieldValue.t;
  documentType : option FieldValue.t
}.
End Fields.

Module DocumentExtraction.
Record t : Type := mk { fields : Fields.t; confidence : float }.
End DocumentExtraction.

(** [ApplicantProfile], as [runAnalysis] builds it (lines 183-191). *)
Module ApplicantProfile.
Record t : Type := mk {
  surname : JsString.t;
  givenNames : JsString.t;
  fullName : JsString.t;
  dateOfBirth : JsString.t;
  nationality : JsString.t;
  passportNumber : JsString.t;
  visaType : JsString.t
}.
End ApplicantProfile.

Inductive CheckStatus : Type := Pass | Warning | Fail.

(** [ApplicantCheck], as [runAnalysis] builds it (lines 212-222). *)
Module ApplicantCheck.
Record t : Type := mk {
  field : JsString.t;
  status : CheckStatus;
  detail : JsString.t;
  confidence : float
}.
End ApplicantCheck.

Module ToastMessage.
Record t : Type := mk { title : JsString.t; description : JsString.t }.
End ToastMessage.

(** The state [applicantForm] (lines 43-50). *)
Module ApplicantForm.
Record t : Type := mk {
  surname : JsString.t;
  givenNames : JsString.t;
  dateOfBirth : JsString.t;
  nationality : JsString.t;
  passportNumber : JsString.t;
  visaType : JsString.t
}.
End ApplicantForm.

(** The status of an uploaded document: "pending", "processing", "done",
    "error". *)
Inductive DocumentStatus : Type :=
  | StatusPending
  | StatusProcessing
  | StatusDone
  | StatusError.

(** ** The interface of the page: what it imports *)

Class Lib : Type := {
  (** the browser's [File], tesseract's [Worker] *)
  File : Type;
  Worker : Type;
  (** types of [src/lib] the page only passes on *)
  MrzRecord : Type;
  Policy : Type;
  EligibilityResult : Type;
  StructuredReport : Type;
  (** [createWorker] followed by [load], [loadLanguage], [initialize] *)
  createWorker : Worker + Thrown;
  (** [worker.recognize(file)], reduced to [result.data.text] *)
  recognize : Worker -> File -> JsString.t + Thrown;
  parseMRZ : JsString.t -> option MrzRecord;
  extractFields : JsString.t -> option MrzRecord -> DocumentExtraction.t;
  (** [parsePolicy(text)]; [None] when it throws *)
  parsePolicy : JsString.t -> option Policy;
  defaultPolicy : Policy;
  evaluateEligibility :
    ApplicantProfile.t -> list DocumentExtraction.t -> Policy -> EligibilityResult;
  buildReport :
    list DocumentExtraction.t -> EligibilityResult -> ApplicantProfile.t ->
    list ApplicantCheck.t -> StructuredReport;
  computeNameSimilarity : JsString.t -> JsString.t -> float;
  (** [Number::toString] of the JavaScript runtime *)
  numberToString : float -> JsString.t;
  (** [String.prototype.toUpperCase] of the JavaScript runtime, on strings
      with no ASCII code unit: the Unicode case table *)
  upperCaseOther : JsString.t -> JsString.t
}.

(** [UploadedDocument] (lines 16-25). *)
Module UploadedDocument.
Record t {L : Lib} : Type := mk {
  id : JsString.t;
  file : File;
  name : JsString.t;
  size : float;
  status : DocumentStatus;
  text : option JsString.t;
  extraction : option DocumentExtraction.t;
  error : option JsString.t
}.
Arguments mk {L}.
End UploadedDocument.

(** The React state of [Home] that [runAnalysis] reads or writes, and the
    worker reference. *)
Module AppState.
Record t {L : Lib} : Type := mk {
  documents : list UploadedDocument.t;
  policyText : JsString.t;
  processing : bool;
  ocrProgress : float;
  report : option StructuredReport;
  toast : option ToastMessage.t;
  applicantForm : ApplicantForm.t;
  workerRef : option Worker
}.
Arguments mk {L}.
End AppState.

(** How a call of [runAnalysis] ends: it returns, or its promise is rejected
    with a thrown value, at one of the two places where a built-in or the
    worker may throw outside a [catch]. *)
Inductive ThrowSite : Type :=
  | AtEnsureWorker
  | AtBestDocReduce.

Inductive Completion : Type :=
  | Returned
  | Rejected (site : ThrowSite) (e : Thrown).

(** What one call of [runAnalysis] leaves behind: the state after its last
    setter, every toast it raised in order, and how it ended. *)
Module Run.
Record t {L : Lib} : Type := mk {
  state : AppState.t;
  toasts : list ToastMessage.t;
  completion : Completion
}.
Arguments mk {L}.
End Run.

(** ** The cross-checks (lines 199-271) *)

Section CrossChecks.

Context {L : Lib}.

#[local] Open Scope float_scope.

(** [f?.value] and [f?.confidence ?? 60] on an optional field; [s ?? ""]. *)
Definition valueOf (f : option FieldValue.t) : option JsString.t :=
  option_map FieldValue.value f.

Definition confidenceOr60 (f : option FieldValue.t) : float :=
  match f with
  | Some fv => FieldValue.confidence fv
  | None => 60
  end.

Definition orEmpty (s : option JsString.t) : JsString.t :=
  match s with
  | Some v => v
  | None => ""
  end.

(** Lines 201-203. *)
Definition pickBest (acc current : DocumentExtraction.t) : DocumentExtraction.t :=
  if JsNumber.gt (DocumentExtraction.confidence current) (DocumentExtraction.confidence acc)
  then current
  else acc.

Definition selectBestDoc (processedDocs : list DocumentExtraction.t)
  : option DocumentExtraction.t :=
  JsArray.reduce pickBest processedDocs.

(** Lines 204-206. *)
Definition docName (bestDoc : DocumentExtraction.t) : JsString.t :=
  let f := DocumentExtraction.fields bestDoc in
  JsString.trim
    (orEmpty (valueOf (Fields.givenNames f)) ++ " " ++ orEmpty (valueOf (Fields.surname f))).

Definition nameStatus (similarity : float) : CheckStatus :=
  if JsNumber.gt similarity 0.75 then Pass
  else if JsNumber.gt similarity 0.4 then Warning
  else Fail.

Definition nameDetail (similarity : float) : JsString.t :=
  "Document vs applicant name similarity "
    ++ JsNumber.toFixed1 numberToString (similarity * 100) ++ "%.".

(** Lines 207-223. *)
Definition fullNameCheck (applicant : ApplicantProfile.t) (bestDoc : DocumentExtraction.t)
  : list ApplicantCheck.t :=
  if JsString.truthy (docName bestDoc) then
    let similarity :=
      computeNameSimilarity (docName bestDoc) (ApplicantProfile.fullName applicant) in
    [ ApplicantCheck.mk "fullName" (nameStatus similarity) (nameDetail similarity)
        (JsNumber.Math_round (similarity * 100)) ]
  else [].

(** Lines 225-236. *)
Definition dateOfBirthCheck (applicant : ApplicantProfile.t) (bestDoc : DocumentExtraction.t)
  : list ApplicantCheck.t :=
  let birthDate := Fields.birthDate (DocumentExtraction.fields bestDoc) in
  let docDob := orEmpty (valueOf birthDate) in
  if JsString.truthy docDob && JsString.truthy (ApplicantProfile.dateOfBirth applicant) then
    let matches := JsString.eqb docDob (ApplicantProfile.dateOfBirth applicant) in
    [ ApplicantCheck.mk "dateOfBirth"
        (if matches then Pass else Warning)
        (if matches then "Date of birth matches applicant input."
         else "DOB mismatch: document " ++ docDob ++ ", applicant "
                ++ ApplicantProfile.dateOfBirth applicant ++ ".")
        (confidenceOr60 birthDate) ]
  else [].

(** Lines 238-253. *)
Definition passportNumberCheck (applicant : ApplicantProfile.t) (bestDoc : DocumentExtraction.t)
  : list ApplicantCheck.t :=
  let documentNumber := Fields.documentNumber (DocumentExtraction.fields bestDoc) in
  let docPassport := orEmpty (valueOf documentNumber) in
  if JsString.truthy docPassport && JsString.truthy (ApplicantProfile.passportNumber applicant)
  then
    let normalizedDoc :=
      JsString.toUpperCase upperCaseOther (JsString.removeWhiteSpace docPassport) in
    let normalizedApplicant :=
      JsString.toUpperCase upperCaseOther
        (JsString.removeWhiteSpace (ApplicantProfile.passportNumber applicant)) in
    let matches := JsString.eqb normalizedDoc normalizedApplicant in
    [ ApplicantCheck.mk "passportNumber"
        (if matches then Pass else Warning)
        (if matches then "Passport number aligns."
         else "Passport mismatch: document " ++ normalizedDoc ++ ", applicant "
                ++ normalizedApplicant ++ ".")
        (confidenceOr60 documentNumber) ]
  else [].

(** Lines 255-271. *)
Definition nationalityCheck (applicant : ApplicantProfile.t) (bestDoc : DocumentExtraction.t)
  : list ApplicantCheck.t :=
  let nationality := Fields.nationality (DocumentExtraction.fields bestDoc) in
  if JsString.truthy (orEmpty (valueOf nationality))
     && JsString.truthy (ApplicantProfile.nationality applicant)
  then
    let docNationality :=
      JsString.toUpperCase upperCaseOther
        (JsString.removeNonLetters (orEmpty (valueOf nationality))) in
    let applicantNationality :=
      JsString.toUpperCase upperCaseOther
        (JsString.removeNonLetters (ApplicantProfile.nationality applicant)) in
    let matches := JsString.eqb docNationality applicantNationality in
    [ ApplicantCheck.mk "nationality"
        (if matches then Pass else Warning)
        (if matches then "Nationality consistent."
         else "Nationality difference: document " ++ docNationality ++ ", applicant "
                ++ applicantNationality ++ ".")
        (confidenceOr60 nationality) ]
  else [].

(** The array [crossChecks] after its four conditional [push]es. *)
Definition crossChecks (applicant : ApplicantProfile.t) (bestDoc : DocumentExtraction.t)
  : list ApplicantCheck.t :=
  (fullNameCheck applicant bestDoc
     ++ dateOfBirthCheck applicant bestDoc
     ++ passportNumberCheck applicant bestDoc
     ++ nationalityCheck applicant bestDoc)%list.

End CrossChecks.

(** ** The analysis run (lines 98-288) *)

Section Analysis.

Context {L : Lib}.

#[local] Open Scope float_scope.

(** *** State setters *)

Definition setDocuments (f : list UploadedDocument.t -> list UploadedDocument.t)
  (st : AppState.t) : AppState.t :=
  AppState.mk (f (AppState.documents st)) (AppState.policyText st)
    (AppState.processing st) (AppState.ocrProgress st) (AppState.report st)
    (AppState.toast st) (AppState.applicantForm st) (AppState.workerRef st).

Definition setProcessing (b : bool) (st : AppState.t) : AppState.t :=
  AppState.mk (AppState.documents st) (AppState.policyText st)
    b (AppState.ocrProgress st) (AppState.report st)
    (AppState.toast st) (AppState.applicantForm st) (AppState.workerRef st).

Definition setOcrProgress (p : float) (st : AppState.t) : AppState.t :=
  AppState.mk (AppState.documents st) (AppState.policyText st)
    (AppState.processing st) p (AppState.report st)
    (AppState.toast st) (AppState.applicantForm st) (AppState.workerRef st).

Definition setReport (r : option StructuredReport) (st : AppState.t) : AppState.t :=
  AppState.mk (AppState.documents st) (AppState.policyText st)
    (AppState.processing st) (AppState.ocrProgress st) r
    (AppState.toast st) (AppState.applicantForm st) (AppState.workerRef st).

Definition setToast (t : ToastMessage.t) (st : AppState.t) : AppState.t :=
  AppState.mk (AppState.documents st) (AppState.policyText st)
    (AppState.processing st) (AppState.ocrProgress st) (AppState.report st)
    (Some t) (AppState.applicantForm st) (AppState.workerRef st).

Definition setWorkerRef (w : option Worker) (st : AppState.t) : AppState.t :=
  AppState.mk (AppState.documents st) (AppState.policyText st)
    (AppState.processing st) (AppState.ocrProgress st) (AppState.report st)
    (AppState.toast st) (AppState.applicantForm st) w.

(** *** The four toasts of [runAnalysis] *)

Definition noDocumentsToast : ToastMessage.t :=
  ToastMessage.mk "No Documents" "Add at least one document image before analysis.".

Definition incompleteToast : ToastMessage.t :=
  ToastMessage.mk "Analysis Incomplete" "OCR failed for all documents. Check image quality.".

Definition policyErrorToast : ToastMessage.t :=
  ToastMessage.mk "Policy Error" "Invalid policy JSON. Reverting to default policy.".

Definition completeToast : ToastMessage.t :=
  ToastMessage.mk "Analysis Complete" "Structured verification report generated.".

(** *** The worker (lines 61-76) *)

Definition ensureWorker (st : AppState.t) : (Worker * AppState.t) + Thrown :=
  match AppState.workerRef st with
  | Some worker => inl (worker, st)
  | None =>
      match createWorker with
      | inl worker => inl (worker, setWorkerRef (Some worker) st)
      | inr e => inr e
      end
  end.

(** *** The document loop (lines 112-161) *)

(** [prev.map(current => current.id === docId ? g(current) : current)] *)
Definition updateDocument (docId : JsString.t) (g : UploadedDocument.t -> UploadedDocument.t)
  : AppState.t -> AppState.t :=
  setDocuments
    (List.map (fun current =>
       if JsString.eqb (UploadedDocument.id current) docId then g current else current)).

Definition markProcessing (current : UploadedDocument.t) : UploadedDocument.t :=
  UploadedDocument.mk (UploadedDocument.id current) (UploadedDocument.file current)
    (UploadedDocument.name current) (UploadedDocument.size current)
    StatusProcessing (UploadedDocument.text current)
    (UploadedDocument.extraction current) None.

Definition markDone (rawText : JsString.t) (extraction : DocumentExtraction.t)
  (current : UploadedDocument.t) : UploadedDocument.t :=
  UploadedDocument.mk (UploadedDocument.id current) (UploadedDocument.file current)
    (UploadedDocument.name current) (UploadedDocument.size current)
    StatusDone (Some rawText) (Some extraction) (UploadedDocument.error current).

Definition markError (message : JsString.t) (current : UploadedDocument.t)
  : UploadedDocument.t :=
  UploadedDocument.mk (UploadedDocument.id current) (UploadedDocument.file current)
    (UploadedDocument.name current) (UploadedDocument.size current)
    StatusError (UploadedDocument.text current)
    (UploadedDocument.extraction current) (Some message).

(** [error instanceof Error ? error.message : "OCR failed unexpectedly."] *)
Definition errorMessage (e : Thrown) : JsString.t :=
  match e with
  | ErrorObject message => message
  | OtherValue => "OCR failed unexpectedly."
  end.

Definition isDoneWithExtraction (doc : UploadedDocument.t) : bool :=
  match UploadedDocument.status doc, UploadedDocument.extraction doc with
  | StatusDone, Some _ => true
  | _, _ => false
  end.

(** Lines 112-114: the extractions of the documents that are "done". *)
Definition existingExtractions (documents : list UploadedDocument.t)
  : list DocumentExtraction.t :=
  List.flat_map
    (fun doc => match UploadedDocument.extraction doc with
                | Some e => [e]
                | None => []
                end)
    (List.filter isDoneWithExtraction documents).

(** One turn of the loop (lines 117-159), on the array collected so far and
    the state. *)
Definition processDocument (worker : Worker)
  (acc : list DocumentExtraction.t * AppState.t) (doc : UploadedDocument.t)
  : list DocumentExtraction.t * AppState.t :=
  let '(collectedExtractions, st) := acc in
  let docId := UploadedDocument.id doc in
  let st := updateDocument docId markProcessing st in
  match recognize worker (UploadedDocument.file doc) with
  | inl rawText =>
      let mrz := parseMRZ rawText in
      let extraction := extractFields rawText mrz in
      ((collectedExtractions ++ [extraction])%list,
       updateDocument docId (markDone rawText extraction) st)
  | inr e =>
      (collectedExtractions, updateDocument docId (markError (errorMessage e)) st)
  end.

(** Lines 112-161: [collectedExtractions] starts from the existing
    extractions and the loop goes over every document. *)
Definition collectExtractions (worker : Worker) (documents : list UploadedDocument.t)
  (st : AppState.t) : list DocumentExtraction.t * AppState.t :=
  fold_left (processDocument worker) documents (existingExtractions documents, st).

(** *** Policy and applicant (lines 172-191) *)

Definition resolvePolicy (policyText : JsString.t) (st : AppState.t)
  : Policy * AppState.t * list ToastMessage.t :=
  match parsePolicy policyText with
  | Some policy => (policy, st, [])
  | None => (defaultPolicy, setToast policyErrorToast st, [policyErrorToast])
  end.

Definition makeApplicant (applicantForm : ApplicantForm.t) : ApplicantProfile.t :=
  ApplicantProfile.mk
    (ApplicantForm.surname applicantForm)
    (ApplicantForm.givenNames applicantForm)
    (JsString.trim
       (ApplicantForm.givenNames applicantForm ++ " " ++ ApplicantForm.surname applicantForm))
    (ApplicantForm.dateOfBirth applicantForm)
    (ApplicantForm.nationality applicantForm)
    (ApplicantForm.passportNumber applicantForm)
    (ApplicantForm.visaType applicantForm).

(** The exception of [reduce] on an empty array. *)
Definition reduceTypeError : Thrown :=
  ErrorObject "Reduce of empty array with no initial value".

(** *** The body of the [try] block (lines 111-283) *)

Definition analysisBody (st0 st : AppState.t)
  : AppState.t * list ToastMessage.t * Completion :=
  match ensureWorker st with
  | inr e => (st, [], Rejected AtEnsureWorker e)
  | inl (worker, st) =>
      let '(processedDocs, st) := collectExtractions worker (AppState.documents st0) st in
      match processedDocs with
      | [] => (setProcessing false (setToast incompleteToast st), [incompleteToast], Returned)
      | _ :: _ =>
          let '(policy, st, policyToasts) := resolvePolicy (AppState.policyText st0) st in
          let applicant := makeApplicant (AppState.applicantForm st0) in
          let eligibility := evaluateEligibility applicant processedDocs policy in
          match selectBestDoc processedDocs with
          | None => (st, policyToasts, Rejected AtBestDocReduce reduceTypeError)
          | Some bestDoc =>
              let structuredReport :=
                buildReport processedDocs eligibility applicant
                  (crossChecks applicant bestDoc) in
              (setToast completeToast (setReport (Some structuredReport) st),
               (policyToasts ++ [completeToast])%list, Returned)
          end
      end
  end.

(** *** [runAnalysis]: the guard, the resets, [try] and [finally].
    [st0] is the state the closure was created with. *)
Definition runAnalysis (st0 : AppState.t) : Run.t :=
  match AppState.documents st0 with
  | [] => Run.mk (setToast noDocumentsToast st0) [noDocumentsToast] Returned
  | _ :: _ =>
      let st := setReport None (setOcrProgress 0 (setProcessing true st0)) in
      let '(st, toasts, completion) := analysisBody st0 st in
      Run.mk (setOcrProgress 0 (setProcessing false st)) toasts completion
  end.

(** The array [processedDocs] of the run started in [st0], when the run gets
    as far as line 161: there are documents and the worker is there. *)
Definition processedDocsOf (st0 : AppState.t) : option (list DocumentExtraction.t) :=
  match AppState.documents st0 with
  | [] => None
  | _ :: _ =>
      match ensureWorker st0 with
      | inr _ => None
      | inl (worker, _) =>
          Some (fst (collectExtractions worker (AppState.documents st0) st0))
      end
  end.

(** The policy the run evaluates eligibility with. *)
Definition policyOf (st0 : AppState.t) : Policy :=
  fst (fst (resolvePolicy (AppState.policyText st0) st0)).

End Analysis.

(** ** Vocabulary of the statements *)

(** The check of a given field in a list of cross-checks, the first one when
    there are several. *)
Definition checkFor (field : JsString.t) (checks : list ApplicantCheck.t)
  : option ApplicantCheck.t :=
  List.find (fun c => JsString.eqb (ApplicantCheck.field c) field) checks.

(** The extractions the loop adds: one per document whose recognition
    succeeds, in the order of the documents. *)
Definition freshExtractions {L : Lib} (worker : Worker)
  (documents : list UploadedDocument.t) : list DocumentExtraction.t :=
  List.flat_map
    (fun doc => match recognize worker (UploadedDocument.file doc) with
                | inl rawText => [extractFields rawText (parseMRZ rawText)]
                | inr _ => []
                end)
    documents.

(** Modelled from the spec: "normalization to a canonical date
    representation" (section 4.3) is done by no function of the sources, and
    the spec does not say which representation is canonical.  The least such
    normalization is taken: year, month and day joined by '-', with '/' and
    '.' read as '-'. *)
Definition canonicalDate (s : JsString.t) : JsString.t :=
  List.map
    (fun c =>
       if (N.eqb c (N_of_ascii "/") || N.eqb c (N_of_ascii "."))%bool
       then N_of_ascii "-" else c) s.

(** [b] stands between [before] and [after] as the earliest extraction of
    greatest confidence: none before it has a confidence greater than or
    equal to its own, none after it a greater one. *)
Definition earliestGreatest (before : list DocumentExtraction.t)
  (b : DocumentExtraction.t) (after : list DocumentExtraction.t) : Prop :=
  (forall d, In d before ->
     (DocumentExtraction.confidence b <=? DocumentExtraction.confidence d)%float = false) /\
  (forall d, In d after ->
     (DocumentExtraction.confidence b <? DocumentExtraction.confidence d)%float = false).



(** ** The other handlers of the page *)

(** What the page reads off a [File]: [file.name] and [file.size]. *)
Class FileApi {L : Lib} : Type := {
  fileName : File -> JsString.t;
  fileSize : File -> float
}.

Section Handlers.

Context {L : Lib} {F : FileApi}.

Definition setApplicantForm (f : ApplicantForm.t -> ApplicantForm.t) (st : AppState.t)
  : AppState.t :=
  AppState.mk (AppState.documents st) (AppState.policyText st)
    (AppState.processing st) (AppState.ocrProgress st) (AppState.report st)
    (AppState.toast st) (f (AppState.applicantForm st)) (AppState.workerRef st).

(** The [onChange] handlers of the applicant form (lines 335-412), on the
    value of the input; nationality and passport number are stored in upper
    case. *)
Definition changeSurname (value : JsString.t) : AppState.t -> AppState.t :=
  setApplicantForm (fun prev =>
    ApplicantForm.mk value (ApplicantForm.givenNames prev) (ApplicantForm.dateOfBirth prev)
      (ApplicantForm.nationality prev) (ApplicantForm.passportNumber prev)
      (ApplicantForm.visaType prev)).

Definition changeGivenNames (value : JsString.t) : AppState.t -> AppState.t :=
  setApplicantForm (fun prev =>
    ApplicantForm.mk (ApplicantForm.surname prev) value (ApplicantForm.dateOfBirth prev)
      (ApplicantForm.nationality prev) (ApplicantForm.passportNumber prev)
      (ApplicantForm.visaType prev)).

Definition changeDateOfBirth (value : JsString.t) : AppState.t -> AppState.t :=
  setApplicantForm (fun prev =>
    ApplicantForm.mk (ApplicantForm.surname prev) (ApplicantForm.givenNames prev) value
      (ApplicantForm.nationality prev) (ApplicantForm.passportNumber prev)
      (ApplicantForm.visaType prev)).

Definition changeNationality (value : JsString.t) : AppState.t -> AppState.t :=
  setApplicantForm (fun prev =>
    ApplicantForm.mk (ApplicantForm.surname prev) (ApplicantForm.givenNames prev)
      (ApplicantForm.dateOfBirth prev) (JsString.toUpperCase upperCaseOther value)
      (ApplicantForm.passportNumber prev) (ApplicantForm.visaType prev)).


Definition changeVisaType (value : JsString.t) : AppState.t -> AppState.t :=
  setApplicantForm (fun prev =>
    ApplicantForm.mk (ApplicantForm.surname prev) (ApplicantForm.givenNames prev)
      (ApplicantForm.dateOfBirth prev) (ApplicantForm.nationality prev)
      (ApplicantForm.passportNumber prev) value).

(** Lines 79-86: one pending document per file.  [randomUUID k] is what the
    call number [k] of [crypto.randomUUID()] returns. *)
Fixpoint nextDocsFrom (randomUUID : nat -> JsString.t) (k : nat) (files : list File)
  : list UploadedDocument.t :=
  match files with
  | [] => []
  | file :: rest =>
      UploadedDocument.mk (randomUUID k) file (fileName file) (fileSize file)
        StatusPending None None None
        :: nextDocsFrom randomUUID (S k) rest
  end.

(** The toast of [handleFiles]; the length of an array is written in
    decimal. *)
Definition filesAddedToast (count : nat) : ToastMessage.t :=
  ToastMessage.mk "Files Added"
    (JsNumber.decimal (Z.of_nat count) ++ " document(s) queued for analysis.").

(** Lines 78-92. *)
Definition handleFiles (randomUUID : nat -> JsString.t) (files : list File) (st : AppState.t)
  : AppState.t :=
  let nextDocs := nextDocsFrom randomUUID 0 files in
  setToast (filesAddedToast (List.length nextDocs))
    (setDocuments (fun prev => (prev ++ nextDocs)%list) st).

(** Lines 94-96. *)
Definition removeDocument (id : JsString.t) (st : AppState.t) : AppState.t :=
  setDocuments
    (List.filter (fun doc => negb (JsString.eqb (UploadedDocument.id doc) id))) st.

(** Lines 290-297, on the files of the drop. *)
Definition handleDrop (randomUUID : nat -> JsString.t) (files : list File) (st : AppState.t)
  : AppState.t :=
  match files with
  | [] => st
  | _ :: _ => handleFiles randomUUID files st
  end.

End Handlers.

(** ** More vocabulary *)

(** What the loop makes of the entry [current] of the state when it handles
    the document [doc] of the same id: "processing", then "done" with the
    text and the extraction, or "error" with the message. *)
Definition settleAs {L : Lib} (worker : Worker) (doc current : UploadedDocument.t)
  : UploadedDocument.t :=
  match recognize worker (UploadedDocument.file doc) with
  | inl rawText =>
      markDone rawText (extractFields rawText (parseMRZ rawText)) (markProcessing current)
  | inr e => markError (errorMessage e) (markProcessing current)
  end.

(** One turn of the loop on the documents of the state. *)
Definition settleIn {L : Lib} (worker : Worker)
  (documents : list UploadedDocument.t) (doc : UploadedDocument.t)
  : list UploadedDocument.t :=
  List.map (fun current =>
    if JsString.eqb (UploadedDocument.id current) (UploadedDocument.id doc)
    then settleAs worker doc current else current) documents.

(** What the user gave for a document, which no handler changes. *)
Definition identity {L : Lib} (doc : UploadedDocument.t) : JsString.t * File * JsString.t * float :=
  (UploadedDocument.id doc, UploadedDocument.file doc, UploadedDocument.name doc,
   UploadedDocument.size doc).


(** A string of white space only, the empty string included. *)
Fixpoint blank (s : JsString.t) : bool :=
  match s with
  | [] => true
  | c :: s' => JsString.isWhiteSpace c && blank s'
  end.

(** fail < warning < pass *)
Definition statusRank (s : CheckStatus) : nat :=
  match s with
  | Fail => 0
  | Warning => 1
  | Pass => 2
  end.

(** ** Sample instances, for evaluating the definitions on concrete inputs *)

Module Sample.

#[local] Open Scope float_scope.

(** A stand-in for [computeNameSimilarity]: 1 for names equal up to case,
    otherwise 0. *)
Definition similarity (a b : JsString.t) : float :=
  if JsString.eqb (JsString.toUpperCase (fun s => s) a) (JsString.toUpperCase (fun s => s) b)
  then 1 else 0.

(** A stand-in for [extractFields]: the whole text as the document number,
    with confidence 90. *)
Definition extract (rawText : JsString.t) (mrz : option unit) : DocumentExtraction.t :=
  DocumentExtraction.mk
    (Fields.mk None None (Some (FieldValue.mk rawText 90)) None None None None None)
    90.

(** A stand-in for the test of [parsePolicy]: a policy text starts with an
    opening brace. *)
Definition startsWithBrace (text : JsString.t) : bool :=
  match text with
  | c :: _ => N.eqb c (N_of_ascii "{")
  | [] => false
  end.

(** A library in which a file is the text written on it (the empty file
    cannot be read), a policy is its name, the eligibility result is the
    name of the policy used, and the report is the tuple of what
    [buildReport] receives. *)
Definition lib : Lib := {|
  File := JsString.t;
  Worker := unit;
  MrzRecord := unit;
  Policy := JsString.t;
  EligibilityResult := JsString.t;
  StructuredReport :=
    list DocumentExtraction.t * JsString.t * ApplicantProfile.t * list ApplicantCheck.t;
  createWorker := inl tt;
  recognize := fun _ file =>
    if JsString.truthy file then inl file else inr (ErrorObject "unreadable image");
  parseMRZ := fun _ => None;
  extractFields := extract;
  parsePolicy := fun text => if startsWithBrace text then Some text else None;
  defaultPolicy := "defaultPolicy";
  evaluateEligibility := fun _ _ policy => policy;
  buildReport := fun docs eligibility applicant checks =>
    (docs, eligibility, applicant, checks);
  computeNameSimilarity := similarity;
  numberToString := fun _ => "NaN";
  upperCaseOther := fun s => s
|}.

(** A passport read with the name JANE MARIE DOE, number "ab 1234567",
    nationality UTO and the given birth date. *)
Definition passport (birthDate : JsString.t) : DocumentExtraction.t :=
  DocumentExtraction.mk
    (Fields.mk
       (Some (FieldValue.mk "DOE" 95))
       (Some (FieldValue.mk "JANE MARIE" 95))
       (Some (FieldValue.mk "ab 1234567" 92))
       (Some (FieldValue.mk "UTO" 95))
       (Some (FieldValue.mk birthDate 93))
       None None None)
    94.

Definition form (surname givenNames : JsString.t) : ApplicantForm.t :=
  ApplicantForm.mk surname givenNames "1990-01-01" "UTO" "AB1234567" "tourist".

Definition jane : ApplicantProfile.t :=
  makeApplicant (form "DOE" "JANE MARIE").

(** An applicant who declared no name. *)
Definition unnamed : ApplicantProfile.t :=
  makeApplicant (form "" "").

Definition pendingDocument (id file : JsString.t) : UploadedDocument.t (L := lib) :=
  UploadedDocument.mk (L := lib) id file "scan.png" 1024 StatusPending None None None.

(** A document a former run has left "done", with its extraction. *)
Definition doneDocument (id file : JsString.t) : UploadedDocument.t (L := lib) :=
  UploadedDocument.mk (L := lib) id file "scan.png" 1024 StatusDone
    (Some file) (Some (extract file None)) None.

Definition state (documents : list (UploadedDocument.t (L := lib))) (policyText : JsString.t)
  : AppState.t (L := lib) :=
  AppState.mk (L := lib) documents policyText false 0 None None
    (form "DOE" "JANE MARIE") None.

(** The name of a sample file is its text; every sample file has 2048
    bytes. *)
Definition files : FileApi (L := lib) :=
  @Build_FileApi lib (fun file : JsString.t => file) (fun _ : JsString.t => 2048%float).

(** A source of identifiers: "id-0", "id-1", ... *)
Definition uuid (k : nat) : JsString.t := "id-" ++ JsNumber.decimal (Z.of_nat k).

(** The same library with no recogniser to be had: creating the worker
    throws. *)
Definition offline : Lib := {|
  File := JsString.t;
  Worker := unit;
  MrzRecord := unit;
  Policy := JsString.t;
  EligibilityResult := JsString.t;
  StructuredReport :=
    list DocumentExtraction.t * JsString.t * ApplicantProfile.t * list ApplicantCheck.t;
  createWorker := inr (ErrorObject "Failed to fetch");
  recognize := fun _ file =>
    if JsString.truthy file then inl file else inr (ErrorObject "unreadable image");
  parseMRZ := fun _ => None;
  extractFields := extract;
  parsePolicy := fun text => if startsWithBrace text then Some text else None;
  defaultPolicy := "defaultPolicy";
  evaluateEligibility := fun _ _ policy => policy;
  buildReport := fun docs eligibility applicant checks =>
    (docs, eligibility, applicant, checks);
  computeNameSimilarity := similarity;
  numberToString := fun _ => "NaN";
  upperCaseOther := fun s => s
|}.

(** A state of the offline page: one pending document, the report and the
    toast of a former run. *)
Definition offlineState : AppState.t (L := offline) :=
  AppState.mk (L := offline)
    [UploadedDocument.mk (L := offline) "d1" (JsString.lit "P<UTOPIA") "scan.png" 1024 StatusPending
       None None None]
    "{}" false 0 (Some ([], JsString.lit "{}", jane, [])) (Some completeToast)
    (form "DOE" "JANE MARIE") None.

(** The state a run has left, with one report and the worker kept. *)
Definition stateAfterRun (documents : list (UploadedDocument.t (L := lib)))
  : AppState.t (L := lib) :=
  AppState.mk (L := lib) documents "{}" false 0
    (Some ([], JsString.lit "{}", jane, [])) (Some completeToast) (form "DOE" "JANE MARIE")
    (Some tt).

End Sample.

(** * Properties *)

(** ** Equality of strings *)

Module JsStringFacts.

Lemma eqb_spec (a b : JsString.t) : reflect (a = b) (JsString.eqb a b).
Proof.
  revert b. induction a as [|x a IH]; intros [|y b]; cbn [JsString.eqb];
    try (constructor; congruence).
  destruct (N.eqb_spec x y) as [->|Hxy]; cbn [andb].
  - destruct (IH b) as [->|Hab]; constructor; congruence.
  - constructor. congruence.
Qed.

Lemma eqb_refl (a : JsString.t) : JsString.eqb a a = true.
Proof. now destruct (eqb_spec a a). Qed.

Lemma eqb_neq (a b : JsString.t) : JsString.eqb a b = false <-> a <> b.
Proof. destruct (eqb_spec a b); split; congruence. Qed.

End JsStringFacts.

(** ** Order of binary64 floats

    The comparisons of [PrimFloat] are specified by [SFcompare] on the
    decoded float; the facts below are the ones the selection of the best
    document and the thresholds of the name check rest on.  They hold with
    NaN among the arguments. *)

Module FloatOrder.

#[local] Open Scope float_scope.


Lemma SFcompare_irrefl a : SFcompare a a <> Some Lt.
Proof.
  destruct a as [s|s| |s m e]; simpl; try discriminate; destruct s; try discriminate.
  all: rewrite Z.compare_refl, Pos.compare_cont_refl; discriminate.
Qed.

(** Less-than followed by less-than-or-equal is less-than. *)
Lemma SFcompare_lt_le a b c o :
  SFcompare a b = Some Lt -> SFcompare b c = Some o -> o <> Gt ->
  SFcompare a c = Some Lt.
Proof.
  destruct a as [sa|sa| |sa ma ea], b as [sb|sb| |sb mb eb], c as [sc|sc| |sc mc ec]; simpl;
    try discriminate;
    try (destruct sa); try (destruct sb); try (destruct sc); simpl;
    try discriminate; try reflexivity;
    try (intros _ H Ho; injection H as <-; congruence).
  all: change (Pos.compare_cont Eq) with Pos.compare.
  all: intros H1 H2 Ho; injection H1 as H1; injection H2 as H2; subst o; f_equal.
  all: destruct (Z.compare_spec ea eb), (Z.compare_spec eb ec), (Z.compare_spec ea ec);
       try discriminate; try lia; try reflexivity; try congruence; subst.
  all: destruct (Pos.compare_spec ma mb), (Pos.compare_spec mb mc), (Pos.compare_spec ma mc);
       simpl in *; try discriminate; try lia; try reflexivity; try congruence.
Qed.

Lemma ltb_irrefl x : (x <? x) = false.
Proof.
  rewrite FloatAxioms.ltb_spec. unfold SFltb.
  pose proof (SFcompare_irrefl (Prim2SF x)) as H.
  destruct (SFcompare (Prim2SF x) (Prim2SF x)) as [[]|]; congruence.
Qed.

Lemma ltb_leb_trans x y z :
  (x <? y) = true -> (y <=? z) = true -> (x <? z) = true.
Proof.
  rewrite !FloatAxioms.ltb_spec, FloatAxioms.leb_spec. unfold SFltb, SFleb.
  destruct (SFcompare (Prim2SF x) (Prim2SF y)) as [[]|] eqn:Hxy; try discriminate.
  destruct (SFcompare (Prim2SF y) (Prim2SF z)) as [o|] eqn:Hyz; try discriminate.
  intros _ Ho.
  rewrite (SFcompare_lt_le _ _ _ o Hxy Hyz); [reflexivity|].
  destruct o; congruence.
Qed.

Lemma ltb_leb x y : (x <? y) = true -> (x <=? y) = true.
Proof.
  rewrite FloatAxioms.ltb_spec, FloatAxioms.leb_spec. unfold SFltb, SFleb.
  destruct (SFcompare (Prim2SF x) (Prim2SF y)) as [[]|]; congruence.
Qed.




End FloatOrder.

(** ** The percentage of a similarity in [0,1]

    [s * 100] is the product rounded to nearest-even ([SF64mul]); the
    rounding shifts the exact product right and may add one to the mantissa,
    which cannot carry the result above 100, a float.  From there
    [Math.round] and [toFixed(1)] stay within 0..100. *)

Module Percent.

#[local] Open Scope Z_scope.











#[local] Open Scope float_scope.






End Percent.

(** ** The cross-checks *)

Section CrossCheckFacts.

Context {L : Lib}.

Variables (applicant : ApplicantProfile.t) (bestDoc : DocumentExtraction.t).

Lemma truthy_iff s : JsString.truthy s = true <-> s <> "".
Proof.
  change (JsString.lit "") with (@nil N).
  destruct s; simpl; split; congruence.
Qed.

(** Each block pushes at most one check, under its own field name; the
    four cases of a block's guard are gone through by [guards]. *)
Ltac guards :=
  unfold crossChecks, fullNameCheck, dateOfBirthCheck, passportNumberCheck, nationalityCheck;
  cbv zeta;
  repeat match goal with
         | |- context [if ?b then _ :: _ else []] => destruct b
         end.

Lemma checkFor_fullName :
  checkFor "fullName" (crossChecks applicant bestDoc)
  = hd_error (fullNameCheck applicant bestDoc).
Proof. guards; reflexivity. Qed.

Lemma checkFor_dateOfBirth :
  checkFor "dateOfBirth" (crossChecks applicant bestDoc)
  = hd_error (dateOfBirthCheck applicant bestDoc).
Proof. guards; reflexivity. Qed.

Lemma checkFor_passportNumber :
  checkFor "passportNumber" (crossChecks applicant bestDoc)
  = hd_error (passportNumberCheck applicant bestDoc).
Proof. guards; reflexivity. Qed.

Lemma checkFor_nationality :
  checkFor "nationality" (crossChecks applicant bestDoc)
  = hd_error (nationalityCheck applicant bestDoc).
Proof. guards; reflexivity. Qed.

(** The three later blocks are guarded on both sides. *)
Lemma dateOfBirth_emitted_iff :
  checkFor "dateOfBirth" (crossChecks applicant bestDoc) <> None <->
  orEmpty (valueOf (Fields.birthDate (DocumentExtraction.fields bestDoc))) <> ""
  /\ ApplicantProfile.dateOfBirth applicant <> "".
Proof.
  rewrite checkFor_dateOfBirth, <- !truthy_iff. unfold dateOfBirthCheck. cbv zeta.
  destruct (JsString.truthy _), (JsString.truthy _); simpl; intuition congruence.
Qed.

Lemma passportNumber_emitted_iff :
  checkFor "passportNumber" (crossChecks applicant bestDoc) <> None <->
  orEmpty (valueOf (Fields.documentNumber (DocumentExtraction.fields bestDoc))) <> ""
  /\ ApplicantProfile.passportNumber applicant <> "".
Proof.
  rewrite checkFor_passportNumber, <- !truthy_iff. unfold passportNumberCheck. cbv zeta.
  destruct (JsString.truthy _), (JsString.truthy _); simpl; intuition congruence.
Qed.

Lemma nationality_emitted_iff :
  checkFor "nationality" (crossChecks applicant bestDoc) <> None <->
  orEmpty (valueOf (Fields.nationality (DocumentExtraction.fields bestDoc))) <> ""
  /\ ApplicantProfile.nationality applicant <> "".
Proof.
  rewrite checkFor_nationality, <- !truthy_iff. unfold nationalityCheck. cbv zeta.
  destruct (JsString.truthy _), (JsString.truthy _); simpl; intuition congruence.
Qed.

(** The first block is guarded on the document's side only. *)
Lemma fullName_emitted_iff :
  checkFor "fullName" (crossChecks applicant bestDoc) <> None <-> docName bestDoc <> "".
Proof.
  rewrite checkFor_fullName, <- truthy_iff. unfold fullNameCheck.
  destruct (JsString.truthy _); simpl; intuition congruence.
Qed.

(** The field names of the checks, in the order of the array: the fixed
    order with the names of the blocks that pushed nothing left out. *)
Lemma crossChecks_fields :
  List.map ApplicantCheck.field (crossChecks applicant bestDoc)
  = List.filter
      (fun f => match checkFor f (crossChecks applicant bestDoc) with
                | Some _ => true
                | None => false
                end)
      (List.map JsString.lit ["fullName"; "dateOfBirth"; "passportNumber"; "nationality"]).
Proof. guards; reflexivity. Qed.

End CrossCheckFacts.

(** ** Claims on the cross-checks *)

(** The check the third block pushes when both dates are there. *)
Lemma dateOfBirth_check_pushed {L : Lib}
  (applicant : ApplicantProfile.t) (bestDoc : DocumentExtraction.t) (fv : FieldValue.t) :
  Fields.birthDate (DocumentExtraction.fields bestDoc) = Some fv ->
  FieldValue.value fv <> "" ->
  ApplicantProfile.dateOfBirth applicant <> "" ->
  checkFor "dateOfBirth" (crossChecks applicant bestDoc)
  = Some (ApplicantCheck.mk "dateOfBirth"
            (if JsString.eqb (FieldValue.value fv) (ApplicantProfile.dateOfBirth applicant)
             then Pass else Warning)
            (if JsString.eqb (FieldValue.value fv) (ApplicantProfile.dateOfBirth applicant)
             then "Date of birth matches applicant input."
             else "DOB mismatch: document " ++ FieldValue.value fv ++ ", applicant "
                    ++ ApplicantProfile.dateOfBirth applicant ++ ".")
            (FieldValue.confidence fv)).
Proof.
  intros Hf Hv Ha. rewrite checkFor_dateOfBirth. unfold dateOfBirthCheck.
  rewrite Hf. cbn [valueOf option_map orEmpty confidenceOr60]. cbv zeta.
  apply truthy_iff in Hv, Ha. rewrite Hv, Ha. reflexivity.
Qed.

(** C1 (as amended).  When the best document has a birth date and the
    applicant declared one, the dateOfBirth check compares the two strings as
    they are, by exact string equality, with no normalization of either: its
    status is pass when they are equal and warning otherwise, never fail; its
    confidence is the one of the extracted field. *)
Theorem dateOfBirth_check_compares_verbatim {L : Lib}
  (applicant : ApplicantProfile.t) (bestDoc : DocumentExtraction.t) (fv : FieldValue.t) :
  Fields.birthDate (DocumentExtraction.fields bestDoc) = Some fv ->
  FieldValue.value fv <> "" ->
  ApplicantProfile.dateOfBirth applicant <> "" ->
  exists c,
    checkFor "dateOfBirth" (crossChecks applicant bestDoc) = Some c /\
    (ApplicantCheck.status c = Pass <->
       FieldValue.value fv = ApplicantProfile.dateOfBirth applicant) /\
    (ApplicantCheck.status c = Warning <->
       FieldValue.value fv <> ApplicantProfile.dateOfBirth applicant) /\
    ApplicantCheck.status c <> Fail /\
    ApplicantCheck.confidence c = FieldValue.confidence fv.
Proof.
  intros Hf Hv Ha. rewrite (dateOfBirth_check_pushed applicant bestDoc fv Hf Hv Ha).
  eexists. split; [reflexivity|]. cbn [ApplicantCheck.status ApplicantCheck.confidence].
  destruct (JsStringFacts.eqb_spec (FieldValue.value fv) (ApplicantProfile.dateOfBirth applicant));
    repeat split; congruence.
Qed.

Lemma dateOfBirth_check_sample :
  exists c,
    checkFor "dateOfBirth"
      (crossChecks (L := Sample.lib) Sample.jane (Sample.passport "1990-01-01")) = Some c /\
    (ApplicantCheck.status c = Pass <->
       JsString.lit "1990-01-01" = ApplicantProfile.dateOfBirth Sample.jane) /\
    (ApplicantCheck.status c = Warning <->
       JsString.lit "1990-01-01" <> ApplicantProfile.dateOfBirth Sample.jane) /\
    ApplicantCheck.status c <> Fail /\
    ApplicantCheck.confidence c = 93%float.
Proof.
  apply (dateOfBirth_check_compares_verbatim (L := Sample.lib)
           Sample.jane (Sample.passport "1990-01-01") (FieldValue.mk "1990-01-01" 93));
    [reflexivity | discriminate | discriminate].
Defined.

(** C1, as stated, fails: "1990/01/01" on the document and "1990-01-01"
    declared are the same date, equal once normalized, and the check is a
    warning. *)
Lemma dateOfBirth_equal_once_normalized_yet_warning :
  canonicalDate "1990/01/01" = canonicalDate (ApplicantProfile.dateOfBirth Sample.jane) /\
  option_map ApplicantCheck.status
    (checkFor "dateOfBirth"
       (crossChecks (L := Sample.lib) Sample.jane (Sample.passport "1990/01/01")))
  = Some Warning.
Proof. split; reflexivity. Qed.

(** The same for any normalization that identifies two distinct non-empty
    strings: the check tells them apart. *)
Lemma dateOfBirth_check_tells_normalized_apart {L : Lib} (normalize : JsString.t -> JsString.t)
  (applicant : ApplicantProfile.t) (bestDoc : DocumentExtraction.t) (fv : FieldValue.t) :
  Fields.birthDate (DocumentExtraction.fields bestDoc) = Some fv ->
  FieldValue.value fv <> "" ->
  ApplicantProfile.dateOfBirth applicant <> "" ->
  FieldValue.value fv <> ApplicantProfile.dateOfBirth applicant ->
  normalize (FieldValue.value fv) = normalize (ApplicantProfile.dateOfBirth applicant) ->
  option_map ApplicantCheck.status (checkFor "dateOfBirth" (crossChecks applicant bestDoc))
  = Some Warning.
Proof.
  intros Hf Hv Ha Hne _.
  rewrite (dateOfBirth_check_pushed applicant bestDoc fv Hf Hv Ha).
  apply JsStringFacts.eqb_neq in Hne. rewrite Hne. reflexivity.
Qed.

(** C3, at the failing input.  The fullName check is pushed as soon as the
    document has a name, whatever the applicant declared, an empty name
    included; the similarity is then taken against that declaration. *)
Theorem fullName_check_needs_no_declared_name {L : Lib}
  (applicant : ApplicantProfile.t) (bestDoc : DocumentExtraction.t) :
  docName bestDoc <> "" ->
  exists c,
    checkFor "fullName" (crossChecks applicant bestDoc) = Some c /\
    ApplicantCheck.status c
    = nameStatus (computeNameSimilarity (docName bestDoc) (ApplicantProfile.fullName applicant)).
Proof.
  intros Hd. rewrite checkFor_fullName. unfold fullNameCheck.
  apply truthy_iff in Hd. rewrite Hd. cbn [hd_error]. eexists. split; reflexivity.
Qed.

Lemma fullName_check_for_unnamed_applicant :
  ApplicantProfile.fullName Sample.unnamed = "" /\
  exists c,
    checkFor "fullName"
      (crossChecks (L := Sample.lib) Sample.unnamed (Sample.passport "1990-01-01")) = Some c /\
    ApplicantCheck.status c
    = nameStatus (Sample.similarity (docName (Sample.passport "1990-01-01")) "").
Proof.
  split; [reflexivity|].
  apply (fullName_check_needs_no_declared_name (L := Sample.lib)
           Sample.unnamed (Sample.passport "1990-01-01")).
  discriminate.
Defined.

(** C4.  When all four checks are there, their order in the array is
    fullName, dateOfBirth, passportNumber, nationality. *)
Theorem crossChecks_order {L : Lib}
  (applicant : ApplicantProfile.t) (bestDoc : DocumentExtraction.t) :
  (forall f,
     In f (List.map JsString.lit ["fullName"; "dateOfBirth"; "passportNumber"; "nationality"]) ->
     checkFor f (crossChecks applicant bestDoc) <> None) ->
  List.map ApplicantCheck.field (crossChecks applicant bestDoc)
  = (List.map JsString.lit ["fullName"; "dateOfBirth"; "passportNumber"; "nationality"]).
Proof.
  intros H. rewrite crossChecks_fields. cbn [List.filter List.map].
  pose proof (H "fullName" ltac:(simpl; tauto)) as H1.
  pose proof (H "dateOfBirth" ltac:(simpl; tauto)) as H2.
  pose proof (H "passportNumber" ltac:(simpl; tauto)) as H3.
  pose proof (H "nationality" ltac:(simpl; tauto)) as H4.
  destruct (checkFor "fullName" _); [|congruence].
  destruct (checkFor "dateOfBirth" _); [|congruence].
  destruct (checkFor "passportNumber" _); [|congruence].
  destruct (checkFor "nationality" _); [|congruence].
  reflexivity.
Qed.

Lemma crossChecks_order_sample :
  List.map ApplicantCheck.field
    (crossChecks (L := Sample.lib) Sample.jane (Sample.passport "1990-01-01"))
  = (List.map JsString.lit ["fullName"; "dateOfBirth"; "passportNumber"; "nationality"]).
Proof.
  apply (crossChecks_order (L := Sample.lib) Sample.jane (Sample.passport "1990-01-01")).
  intros f [<-|[<-|[<-|[<-|[]]]]]; discriminate.
Defined.

(** C5.  When the document has a number and the applicant declared one, the
    passportNumber check compares the two with all white space removed and
    in upper case: pass exactly when these are equal, warning otherwise.  So
    "ab 1234567" on the document against the declared "AB1234567" is a
    pass, both being normalized to "AB1234567". *)
Theorem passportNumber_check_normalizes {L : Lib}
  (applicant : ApplicantProfile.t) (bestDoc : DocumentExtraction.t) (fv : FieldValue.t) :
  Fields.documentNumber (DocumentExtraction.fields bestDoc) = Some fv ->
  FieldValue.value fv <> "" ->
  ApplicantProfile.passportNumber applicant <> "" ->
  let normalizedDoc :=
    JsString.toUpperCase upperCaseOther (JsString.removeWhiteSpace (FieldValue.value fv)) in
  let normalizedApplicant :=
    JsString.toUpperCase upperCaseOther
      (JsString.removeWhiteSpace (ApplicantProfile.passportNumber applicant)) in
  exists c,
    checkFor "passportNumber" (crossChecks applicant bestDoc) = Some c /\
    (ApplicantCheck.status c = Pass <-> normalizedDoc = normalizedApplicant) /\
    (ApplicantCheck.status c = Warning <-> normalizedDoc <> normalizedApplicant) /\
    ApplicantCheck.confidence c = FieldValue.confidence fv /\
    (FieldValue.value fv = "ab 1234567" ->
     ApplicantProfile.passportNumber applicant = "AB1234567" ->
     normalizedDoc = "AB1234567" /\ normalizedApplicant = "AB1234567" /\
     ApplicantCheck.status c = Pass).
Proof.
  intros Hf Hv Ha. cbv zeta. rewrite checkFor_passportNumber. unfold passportNumberCheck.
  rewrite Hf. cbn [valueOf option_map orEmpty confidenceOr60]. cbv zeta.
  apply truthy_iff in Hv, Ha. rewrite Hv, Ha. cbn [andb hd_error].
  eexists. split; [reflexivity|]. cbn [ApplicantCheck.status ApplicantCheck.confidence].
  split; [|split; [|split]].
  - destruct (JsStringFacts.eqb_spec
                (JsString.toUpperCase upperCaseOther
                   (JsString.removeWhiteSpace (FieldValue.value fv)))
                (JsString.toUpperCase upperCaseOther
                   (JsString.removeWhiteSpace (ApplicantProfile.passportNumber applicant))));
      split; congruence.
  - destruct (JsStringFacts.eqb_spec
                (JsString.toUpperCase upperCaseOther
                   (JsString.removeWhiteSpace (FieldValue.value fv)))
                (JsString.toUpperCase upperCaseOther
                   (JsString.removeWhiteSpace (ApplicantProfile.passportNumber applicant))));
      split; congruence.
  - reflexivity.
  - intros -> ->. repeat split.
Qed.

Lemma passportNumber_scenario_C :
  exists c,
    checkFor "passportNumber"
      (crossChecks (L := Sample.lib) Sample.jane (Sample.passport "1990-01-01")) = Some c /\
    (ApplicantCheck.status c = Pass <-> JsString.lit "AB1234567" = "AB1234567") /\
    (ApplicantCheck.status c = Warning <-> JsString.lit "AB1234567" <> "AB1234567") /\
    ApplicantCheck.confidence c = 92%float /\
    (JsString.lit "ab 1234567" = "ab 1234567" -> JsString.lit "AB1234567" = "AB1234567" ->
     JsString.lit "AB1234567" = "AB1234567" /\ JsString.lit "AB1234567" = "AB1234567" /\
     ApplicantCheck.status c = Pass).
Proof.
  apply (passportNumber_check_normalizes (L := Sample.lib)
           Sample.jane (Sample.passport "1990-01-01") (FieldValue.mk "ab 1234567" 92));
    [reflexivity | discriminate | discriminate].
Defined.

(** White space is the one of [\s]: a no-break space (U+00A0) in the
    document's number is removed as a space is. *)
Example passportNumber_with_no_break_space :
  option_map ApplicantCheck.status
    (checkFor "passportNumber"
       (crossChecks (L := Sample.lib) Sample.jane
          (Sample.extract ("AB" ++ [0xA0%N] ++ "1234567") None)))
  = Some Pass.
Proof. reflexivity. Qed.



(** ** The document loop and the run *)

Section RunFacts.

Context {L : Lib}.

(** The loop appends, to what was collected, the extraction of every
    document that is recognised, and touches nothing but [documents] in the
    state. *)
Lemma processDocuments_fst worker documents acc st :
  fst (fold_left (processDocument worker) documents (acc, st))
  = (acc ++ freshExtractions worker documents)%list.
Proof.
  revert acc st. induction documents as [|doc documents IH]; intros acc st.
  - simpl. now rewrite app_nil_r.
  - cbn [fold_left]. unfold processDocument at 2. unfold freshExtractions. cbn [flat_map].
    destruct (recognize worker (UploadedDocument.file doc)) as [rawText|e].
    + rewrite IH. unfold freshExtractions. now rewrite <- app_assoc.
    + rewrite IH. reflexivity.
Qed.

Lemma setDocuments_setDocuments f g (st : AppState.t) :
  setDocuments g (setDocuments f st) = setDocuments (fun ds => g (f ds)) st.
Proof. reflexivity. Qed.

Lemma processDocuments_snd worker documents acc st :
  exists f, snd (fold_left (processDocument worker) documents (acc, st)) = setDocuments f st.
Proof.
  revert acc st. induction documents as [|doc documents IH]; intros acc st.
  - exists (fun ds => ds). destruct st; reflexivity.
  - cbn [fold_left]. unfold processDocument at 2. unfold updateDocument.
    destruct (recognize worker (UploadedDocument.file doc)) as [rawText|e].
    + destruct (IH (acc ++ [extractFields rawText (parseMRZ rawText)])%list
                  (setDocuments
                     (List.map (fun current =>
                        if JsString.eqb (UploadedDocument.id current) (UploadedDocument.id doc)
                        then markDone rawText (extractFields rawText (parseMRZ rawText)) current
                        else current))
                     (setDocuments
                        (List.map (fun current =>
                           if JsString.eqb (UploadedDocument.id current) (UploadedDocument.id doc)
                           then markProcessing current else current)) st)))
        as [f ->].
      rewrite !setDocuments_setDocuments. eexists. reflexivity.
    + destruct (IH acc
                  (setDocuments
                     (List.map (fun current =>
                        if JsString.eqb (UploadedDocument.id current) (UploadedDocument.id doc)
                        then markError (errorMessage e) current else current))
                     (setDocuments
                        (List.map (fun current =>
                           if JsString.eqb (UploadedDocument.id current) (UploadedDocument.id doc)
                           then markProcessing current else current)) st)))
        as [f ->].
      rewrite !setDocuments_setDocuments. eexists. reflexivity.
Qed.

Lemma collectExtractions_fst worker documents st :
  fst (collectExtractions worker documents st)
  = (existingExtractions documents ++ freshExtractions worker documents)%list.
Proof. apply processDocuments_fst. Qed.

Lemma collectExtractions_eq worker documents st :
  exists f,
    collectExtractions worker documents st
    = ((existingExtractions documents ++ freshExtractions worker documents)%list,
       setDocuments f st).
Proof.
  destruct (processDocuments_snd worker documents (existingExtractions documents) st)
    as [f Hf].
  exists f. rewrite <- Hf, <- (collectExtractions_fst worker documents st).
  unfold collectExtractions. now destruct (fold_left _ _ _).
Qed.

(** What [processedDocs] is, when the run gets there. *)
Lemma processedDocsOf_eq (st0 : AppState.t) worker st1 :
  AppState.documents st0 <> [] ->
  ensureWorker st0 = inl (worker, st1) ->
  processedDocsOf st0
  = Some (existingExtractions (AppState.documents st0)
            ++ freshExtractions worker (AppState.documents st0))%list.
Proof.
  intros Hd Hw. unfold processedDocsOf. rewrite Hw, collectExtractions_fst.
  destruct (AppState.documents st0); [contradiction|reflexivity].
Qed.

(** With no document "done" beforehand, the array has one extraction per
    recognised document and nothing else. *)
Lemma fresh_run_collects_once (st0 : AppState.t) worker st1 :
  AppState.documents st0 <> [] ->
  ensureWorker st0 = inl (worker, st1) ->
  (forall doc, In doc (AppState.documents st0) -> isDoneWithExtraction doc = false) ->
  processedDocsOf st0 = Some (freshExtractions worker (AppState.documents st0)).
Proof.
  intros Hd Hw Hnone. rewrite (processedDocsOf_eq st0 worker st1 Hd Hw).
  assert (Hnil : forall docs : list UploadedDocument.t,
             (forall doc, In doc docs -> isDoneWithExtraction doc = false) ->
             List.filter isDoneWithExtraction docs = []).
  { induction docs as [|doc docs IH]; intros H; [reflexivity|].
    cbn [List.filter]. rewrite (H doc (or_introl eq_refl)).
    apply IH. intros d Hin. apply H. right. exact Hin. }
  unfold existingExtractions. rewrite (Hnil _ Hnone). reflexivity.
Qed.

(** The resets of lines 106-108 do not touch the worker reference. *)
Lemma ensureWorker_after_resets (st0 : AppState.t) :
  ensureWorker (setReport None (setOcrProgress 0 (setProcessing true st0)))
  = match ensureWorker st0 with
    | inl (worker, st1) =>
        inl (worker, setReport None (setOcrProgress 0 (setProcessing true st1)))
    | inr e => inr e
    end.
Proof.
  unfold ensureWorker. cbn [setReport setOcrProgress setProcessing AppState.workerRef].
  destruct (AppState.workerRef st0); [reflexivity|].
  destruct createWorker; reflexivity.
Qed.

(** The run, by what [processedDocs] is: never computed (no document, or no
    worker), empty, or not. *)
Lemma runAnalysis_by_cases (st0 : AppState.t) :
  let run := runAnalysis st0 in
  match processedDocsOf st0 with
  | None =>
      (AppState.documents st0 = [] /\
       run = Run.mk (setToast noDocumentsToast st0) [noDocumentsToast] Returned)
      \/ (AppState.documents st0 <> [] /\
          AppState.report (Run.state run) = None /\
          Run.toasts run = [] /\
          exists e, Run.completion run = Rejected AtEnsureWorker e)
  | Some [] =>
      AppState.report (Run.state run) = None /\
      AppState.toast (Run.state run) = Some incompleteToast /\
      AppState.processing (Run.state run) = false /\
      Run.toasts run = [incompleteToast] /\
      Run.completion run = Returned
  | Some (d :: ds) =>
      let applicant := makeApplicant (AppState.applicantForm st0) in
      AppState.report (Run.state run)
      = Some (buildReport (d :: ds)
                (evaluateEligibility applicant (d :: ds) (policyOf st0)) applicant
                (crossChecks applicant (fold_left pickBest ds d))) /\
      AppState.toast (Run.state run) = Some completeToast /\
      AppState.processing (Run.state run) = false /\
      Run.toasts run
      = (match parsePolicy (AppState.policyText st0) with
         | Some _ => []
         | None => [policyErrorToast]
         end ++ [completeToast])%list /\
      Run.completion run = Returned
  end.
Proof.
  cbv zeta. unfold processedDocsOf, runAnalysis, policyOf.
  destruct (AppState.documents st0) as [|doc0 docs0] eqn:Hdocs.
  - left. split; reflexivity.
  - unfold analysisBody. rewrite ensureWorker_after_resets, Hdocs.
    destruct (ensureWorker st0) as [[worker st1]|e].
    + rewrite collectExtractions_fst.
      destruct (collectExtractions_eq worker (doc0 :: docs0)
                  (setReport None (setOcrProgress 0 (setProcessing true st1))))
        as [f ->].
      destruct (existingExtractions (doc0 :: docs0) ++ freshExtractions worker (doc0 :: docs0))%list
        as [|d ds].
      * repeat split.
      * unfold resolvePolicy.
        destruct (parsePolicy (AppState.policyText st0)); repeat split.
    + right. repeat split; try discriminate. now exists e.
Qed.

End RunFacts.

(** ** The best document *)

Section BestDocument.

#[local] Open Scope float_scope.

Lemma pickBest_fold rest : forall before acc after,
  earliestGreatest before acc after ->
  exists before' b after',
    fold_left pickBest rest acc = b /\
    (before ++ acc :: after ++ rest = before' ++ b :: after')%list /\
    earliestGreatest before' b after'.
Proof.
  induction rest as [|x rest IH]; intros before acc after [Hb Ha].
  - exists before, acc, after. rewrite app_nil_r. repeat split; assumption.
  - cbn [fold_left]. unfold pickBest at 2. unfold JsNumber.gt.
    destruct (DocumentExtraction.confidence acc <? DocumentExtraction.confidence x) eqn:Hx.
    + destruct (IH (before ++ acc :: after)%list x []) as (b' & b & a' & Hf & Hl & He).
      * split; [|intros d []].
        intros d Hd. apply in_app_or in Hd.
        destruct (DocumentExtraction.confidence x <=? DocumentExtraction.confidence d) eqn:Hxd;
          [exfalso|reflexivity].
        pose proof (FloatOrder.ltb_leb_trans _ _ _ Hx Hxd) as Hlt.
        destruct Hd as [Hd|[<-|Hd]].
        -- apply FloatOrder.ltb_leb in Hlt. rewrite (Hb d Hd) in Hlt. discriminate.
        -- rewrite FloatOrder.ltb_irrefl in Hlt. discriminate.
        -- rewrite (Ha d Hd) in Hlt. discriminate.
      * exists b', b, a'. split; [exact Hf|]. split; [|exact He].
        rewrite <- Hl. cbn [app]. rewrite <- app_assoc. reflexivity.
    + destruct (IH before acc (after ++ [x])%list) as (b' & b & a' & Hf & Hl & He).
      * split; [exact Hb|].
        intros d Hd. apply in_app_or in Hd. destruct Hd as [Hd|[<-|[]]]; auto.
      * exists b', b, a'. split; [exact Hf|]. split; [|exact He].
        rewrite <- Hl, <- app_assoc. reflexivity.
Qed.

(** The selection on a non-empty array. *)
Lemma selectBestDoc_earliestGreatest d ds :
  exists before b after,
    selectBestDoc (d :: ds) = Some b /\
    d :: ds = (before ++ b :: after)%list /\
    earliestGreatest before b after.
Proof.
  destruct (pickBest_fold ds [] d []) as (before & b & after & Hf & Hl & He).
  - split; intros ? [].
  - exists before, b, after. unfold selectBestDoc, JsArray.reduce. rewrite Hf.
    repeat split; try apply He. exact Hl.
Qed.

End BestDocument.

(** ** Claims on the run *)

(** C2, at the failing input.  A document that a former run left "done",
    with its extraction [e], and that is recognised again, gives two
    extractions to the array: [e] and the new one; eligibility is evaluated
    and the report is built on the two. *)
Theorem done_document_is_collected_twice {L : Lib}
  (st0 : AppState.t) (doc : UploadedDocument.t) (e : DocumentExtraction.t)
  (worker : Worker) (st1 : AppState.t) (rawText : JsString.t) :
  AppState.documents st0 = [doc] ->
  UploadedDocument.status doc = StatusDone ->
  UploadedDocument.extraction doc = Some e ->
  ensureWorker st0 = inl (worker, st1) ->
  recognize worker (UploadedDocument.file doc) = inl rawText ->
  let e' := extractFields rawText (parseMRZ rawText) in
  let applicant := makeApplicant (AppState.applicantForm st0) in
  processedDocsOf st0 = Some [e; e'] /\
  AppState.report (Run.state (runAnalysis st0))
  = Some (buildReport [e; e']
            (evaluateEligibility applicant [e; e'] (policyOf st0)) applicant
            (crossChecks applicant (pickBest e e'))).
Proof.
  intros Hd Hs He Hw Hr. cbv zeta.
  assert (Hp : processedDocsOf st0 = Some [e; extractFields rawText (parseMRZ rawText)]).
  { rewrite (processedDocsOf_eq st0 worker st1 ltac:(rewrite Hd; discriminate) Hw).
    rewrite Hd. unfold existingExtractions, freshExtractions, isDoneWithExtraction.
    cbn [List.filter flat_map]. rewrite Hs, He. cbn [flat_map app]. rewrite He, Hr.
    reflexivity. }
  split; [exact Hp|].
  pose proof (runAnalysis_by_cases st0) as H. cbv zeta in H. rewrite Hp in H.
  apply H.
Qed.

Lemma done_document_sample :
  let st0 := Sample.state [Sample.doneDocument "d1" "P<UTOPIA"] "{}" in
  let e := Sample.extract "P<UTOPIA" None in
  let applicant := makeApplicant (AppState.applicantForm st0) in
  processedDocsOf (L := Sample.lib) st0 = Some [e; e] /\
  AppState.report (Run.state (runAnalysis (L := Sample.lib) st0))
  = Some ([e; e], JsString.lit "{}", applicant, crossChecks (L := Sample.lib) applicant e).
Proof.
  apply (done_document_is_collected_twice (L := Sample.lib)
           (Sample.state [Sample.doneDocument "d1" "P<UTOPIA"] "{}")
           (Sample.doneDocument "d1" "P<UTOPIA") (Sample.extract "P<UTOPIA" None) tt
           (setWorkerRef (L := Sample.lib) (Some tt)
              (Sample.state [Sample.doneDocument "d1" "P<UTOPIA"] "{}"))
           "P<UTOPIA");
    reflexivity.
Defined.

(** C7, at the failing input.  When the policy text does not parse, in a
    run that has extractions: the run returns and the report is built with
    the eligibility evaluated under the default policy.  The [catch] block
    sets the "Policy Error" toast in the state, and the run then sets the
    closing toast over it before it returns: the toast the run leaves in the
    state is "Analysis Complete", not "Policy Error". *)
Theorem policy_fallback_toast_is_overwritten {L : Lib}
  (st0 : AppState.t) (d : DocumentExtraction.t) (ds : list DocumentExtraction.t) :
  processedDocsOf st0 = Some (d :: ds) ->
  parsePolicy (AppState.policyText st0) = None ->
  let run := runAnalysis st0 in
  let applicant := makeApplicant (AppState.applicantForm st0) in
  Run.completion run = Returned /\
  (exists bestDoc,
     selectBestDoc (d :: ds) = Some bestDoc /\
     AppState.report (Run.state run)
     = Some (buildReport (d :: ds)
               (evaluateEligibility applicant (d :: ds) defaultPolicy) applicant
               (crossChecks applicant bestDoc))) /\
  (forall st,
     AppState.toast (snd (fst (resolvePolicy (AppState.policyText st0) st)))
     = Some policyErrorToast) /\
  Run.toasts run = [policyErrorToast; completeToast] /\
  AppState.toast (Run.state run) = Some completeToast /\
  AppState.toast (Run.state run) <> Some policyErrorToast.
Proof.
  intros Hp Hparse. cbv zeta.
  pose proof (runAnalysis_by_cases st0) as H. cbv zeta in H. rewrite Hp in H.
  destruct H as (Hr & Hs & _ & Ht & Hc).
  unfold policyOf, resolvePolicy in Hr. rewrite Hparse in Hr, Ht.
  split; [exact Hc|]. split; [eexists; split; [reflexivity|exact Hr]|].
  split; [intros st; unfold resolvePolicy; rewrite Hparse; reflexivity|].
  split; [exact Ht|]. split; [exact Hs|].
  rewrite Hs. intros E. injection E as E _. vm_compute in E. discriminate E.
Qed.

Lemma policy_fallback_sample :
  let st0 := Sample.state [Sample.pendingDocument "d1" "P<UTOPIA"] "not json" in
  let run := runAnalysis (L := Sample.lib) st0 in
  let applicant := makeApplicant (AppState.applicantForm st0) in
  Run.completion run = Returned /\
  (exists bestDoc,
     selectBestDoc [Sample.extract "P<UTOPIA" None] = Some bestDoc /\
     AppState.report (Run.state run)
     = Some ([Sample.extract "P<UTOPIA" None], JsString.lit "defaultPolicy", applicant,
             crossChecks (L := Sample.lib) applicant bestDoc)) /\
  (forall st,
     AppState.toast (snd (fst (resolvePolicy (L := Sample.lib) "not json" st)))
     = Some policyErrorToast) /\
  Run.toasts run = [policyErrorToast; completeToast] /\
  AppState.toast (Run.state run) = Some completeToast /\
  AppState.toast (Run.state run) <> Some policyErrorToast.
Proof.
  apply (policy_fallback_toast_is_overwritten (L := Sample.lib)
           (Sample.state [Sample.pendingDocument "d1" "P<UTOPIA"] "not json")
           (Sample.extract "P<UTOPIA" None) []);
    reflexivity.
Defined.



(** C9.  On a non-empty array of extractions, the best document is one of
    them and no extraction of the array has a greater confidence. *)
Theorem best_document_is_greatest (processedDocs : list DocumentExtraction.t) :
  processedDocs <> [] ->
  exists bestDoc,
    selectBestDoc processedDocs = Some bestDoc /\
    In bestDoc processedDocs /\
    forall d, In d processedDocs ->
      JsNumber.gt (DocumentExtraction.confidence d) (DocumentExtraction.confidence bestDoc)
      = false.
Proof.
  intros Hne. destruct processedDocs as [|d0 ds]; [contradiction|].
  destruct (selectBestDoc_earliestGreatest d0 ds) as (before & b & after & Hs & Hl & Hb & Ha).
  exists b. split; [exact Hs|]. rewrite Hl. split.
  - apply in_or_app. right. left. reflexivity.
  - intros d Hd. unfold JsNumber.gt. apply in_app_or in Hd. destruct Hd as [Hd|[<-|Hd]].
    + destruct (DocumentExtraction.confidence b <? DocumentExtraction.confidence d)%float
        eqn:E; [|reflexivity].
      apply FloatOrder.ltb_leb in E. rewrite (Hb d Hd) in E. discriminate.
    + apply FloatOrder.ltb_irrefl.
    + apply Ha, Hd.
Qed.

Lemma best_document_sample :
  exists bestDoc,
    selectBestDoc [Sample.extract "P<UTOPIA" None; Sample.passport "1990-01-01"]
    = Some bestDoc /\
    In bestDoc [Sample.extract "P<UTOPIA" None; Sample.passport "1990-01-01"] /\
    forall d, In d [Sample.extract "P<UTOPIA" None; Sample.passport "1990-01-01"] ->
      JsNumber.gt (DocumentExtraction.confidence d) (DocumentExtraction.confidence bestDoc)
      = false.
Proof.
  apply (best_document_is_greatest
           [Sample.extract "P<UTOPIA" None; Sample.passport "1990-01-01"]).
  discriminate.
Defined.

(** C10.  No run is rejected by the [reduce] of the best-document
    selection: a run whose array of extractions is empty returns before it.
    On the array of a run that has extractions, the selection gives the
    earliest extraction of greatest confidence: none before it has a
    confidence greater than or equal to its own, none after it a greater
    one. *)
Theorem best_document_selection_is_safe {L : Lib} (st0 : AppState.t) :
  (forall e, Run.completion (runAnalysis st0) <> Rejected AtBestDocReduce e) /\
  (processedDocsOf st0 = Some [] -> Run.completion (runAnalysis st0) = Returned) /\
  (forall d ds, processedDocsOf st0 = Some (d :: ds) ->
     exists before bestDoc after,
       selectBestDoc (d :: ds) = Some bestDoc /\
       d :: ds = (before ++ bestDoc :: after)%list /\
       earliestGreatest before bestDoc after).
Proof.
  pose proof (runAnalysis_by_cases st0) as H. cbv zeta in H.
  split; [|split].
  - intros e. destruct (processedDocsOf st0) as [[|d ds]|].
    + destruct H as (_ & _ & _ & _ & ->). discriminate.
    + destruct H as (_ & _ & _ & _ & ->). discriminate.
    + destruct H as [[_ ->]|(_ & _ & _ & e' & ->)]; discriminate.
  - intros Hp. rewrite Hp in H. apply H.
  - intros d ds _. apply selectBestDoc_earliestGreatest.
Qed.

(** * Further properties of the page *)

(** ** The state a run leaves *)

Section LoopState.

Context {L : Lib}.

Lemma processDocument_eq worker acc (st : AppState.t) doc :
  processDocument worker (acc, st) doc
  = ((acc ++ freshExtractions worker [doc])%list,
     setDocuments (fun ds => settleIn worker ds doc) st).
Proof.
  unfold processDocument, freshExtractions, updateDocument, settleIn, settleAs.
  cbn [flat_map]. rewrite app_nil_r.
  assert (Hstate : forall g : UploadedDocument.t -> UploadedDocument.t,
    setDocuments
      (List.map (fun current =>
         if JsString.eqb (UploadedDocument.id current) (UploadedDocument.id doc)
         then g current else current))
      (setDocuments
         (List.map (fun current =>
            if JsString.eqb (UploadedDocument.id current) (UploadedDocument.id doc)
            then markProcessing current else current)) st)
    = setDocuments
        (fun ds => List.map (fun current =>
           if JsString.eqb (UploadedDocument.id current) (UploadedDocument.id doc)
           then g (markProcessing current) else current) ds) st).
  { intros g. unfold setDocuments.
    cbn [AppState.documents AppState.policyText AppState.processing AppState.ocrProgress
         AppState.report AppState.toast AppState.applicantForm AppState.workerRef].
    f_equal. rewrite map_map. apply map_ext. intros current.
    destruct (JsString.eqb (UploadedDocument.id current) (UploadedDocument.id doc)) eqn:E.
    - cbn [markProcessing UploadedDocument.id]. rewrite E. reflexivity.
    - rewrite E. reflexivity. }
  destruct (recognize worker (UploadedDocument.file doc)) as [rawText|e].
  - rewrite Hstate. reflexivity.
  - rewrite Hstate, app_nil_r. reflexivity.
Qed.

Lemma processDocuments_exact worker documents : forall acc (st : AppState.t),
  fold_left (processDocument worker) documents (acc, st)
  = ((acc ++ freshExtractions worker documents)%list,
     setDocuments (fun ds => fold_left (settleIn worker) documents ds) st).
Proof.
  induction documents as [|doc documents IH]; intros acc st.
  - cbn. rewrite app_nil_r. destruct st; reflexivity.
  - cbn [fold_left]. rewrite processDocument_eq, IH. f_equal.
    rewrite <- app_assoc. f_equal. unfold freshExtractions. cbn [flat_map].
    now rewrite app_nil_r.
Qed.

Lemma ensureWorker_inl (st st1 : AppState.t) worker :
  ensureWorker st = inl (worker, st1) -> st1 = setWorkerRef (Some worker) st.
Proof.
  unfold ensureWorker. destruct (AppState.workerRef st) as [w|] eqn:Hw.
  - intros H. injection H as <- <-. destruct st. cbn in Hw. subst. reflexivity.
  - destruct createWorker as [w|e]; [|discriminate].
    intros H. injection H as <- <-. reflexivity.
Qed.


(** A run that gets a worker: all of its state but the report and the
    toast. *)
Lemma runAnalysis_state (st0 st1 : AppState.t) worker :
  AppState.documents st0 <> [] ->
  ensureWorker st0 = inl (worker, st1) ->
  let final := Run.state (runAnalysis st0) in
  AppState.documents final
  = fold_left (settleIn worker) (AppState.documents st0) (AppState.documents st0) /\
  AppState.policyText final = AppState.policyText st0 /\
  AppState.applicantForm final = AppState.applicantForm st0 /\
  AppState.workerRef final = Some worker /\
  AppState.processing final = false /\
  AppState.ocrProgress final = 0%float.
Proof.
  intros Hd Hw. cbv zeta. unfold runAnalysis.
  destruct (AppState.documents st0) as [|doc0 docs0] eqn:Hdocs; [contradiction|].
  unfold analysisBody. rewrite ensureWorker_after_resets, Hw, Hdocs.
  unfold collectExtractions. rewrite processDocuments_exact.
  apply ensureWorker_inl in Hw. subst st1.
  destruct (existingExtractions (doc0 :: docs0) ++ freshExtractions worker (doc0 :: docs0))%list
    as [|d ds].
  - cbn. rewrite Hdocs. repeat split.
  - unfold resolvePolicy. destruct (parsePolicy (AppState.policyText st0));
      cbn; rewrite Hdocs; repeat split.
Qed.

(** A run that gets no worker. *)
Lemma runAnalysis_rejected (st0 : AppState.t) e :
  AppState.documents st0 <> [] ->
  ensureWorker st0 = inr e ->
  runAnalysis st0
  = Run.mk
      (setOcrProgress 0 (setProcessing false
         (setReport None (setOcrProgress 0 (setProcessing true st0)))))
      [] (Rejected AtEnsureWorker e).
Proof.
  intros Hd Hw. unfold runAnalysis.
  destruct (AppState.documents st0) as [|doc0 docs0]; [contradiction|].
  unfold analysisBody. rewrite ensureWorker_after_resets, Hw. reflexivity.
Qed.

Lemma settleAs_identity worker doc current :
  identity (settleAs worker doc current) = identity current.
Proof.
  unfold settleAs. destruct (recognize worker (UploadedDocument.file doc)); reflexivity.
Qed.

Lemma settleIn_identity worker ds doc :
  List.map identity (settleIn worker ds doc) = List.map identity ds.
Proof.
  unfold settleIn. rewrite map_map. apply map_ext. intros current.
  destruct (JsString.eqb _ _); [apply settleAs_identity|reflexivity].
Qed.

Lemma settle_all_identity worker documents : forall ds,
  List.map identity (fold_left (settleIn worker) documents ds) = List.map identity ds.
Proof.
  induction documents as [|doc documents IH]; intros ds; [reflexivity|].
  cbn [fold_left]. rewrite IH. apply settleIn_identity.
Qed.







End LoopState.

Section SecondRun.

Context {L : Lib}.




End SecondRun.

(** ** Further properties: the run *)

(** X1.  Whatever way a run with documents ends (it returns with or without
    a report, or the worker cannot be created), [processing] is false and
    [ocrProgress] is 0 after it. *)
Theorem run_always_ends_idle {L : Lib} (st0 : AppState.t) :
  AppState.documents st0 <> [] ->
  AppState.processing (Run.state (runAnalysis st0)) = false /\
  AppState.ocrProgress (Run.state (runAnalysis st0)) = 0%float.
Proof.
  intros Hd. destruct (ensureWorker st0) as [[worker st1]|e] eqn:Hw.
  - destruct (runAnalysis_state st0 st1 worker Hd Hw) as (_ & _ & _ & _ & Hp & Ho).
    split; assumption.
  - rewrite (runAnalysis_rejected st0 e Hd Hw). split; reflexivity.
Qed.

Lemma run_always_ends_idle_sample :
  AppState.processing
    (Run.state (runAnalysis (L := Sample.lib)
                  (Sample.state [Sample.pendingDocument "d1" ""] "{}"))) = false /\
  AppState.ocrProgress
    (Run.state (runAnalysis (L := Sample.lib)
                  (Sample.state [Sample.pendingDocument "d1" ""] "{}"))) = 0%float.
Proof.
  apply (run_always_ends_idle (L := Sample.lib)
           (Sample.state [Sample.pendingDocument "d1" ""] "{}")).
  discriminate.
Defined.

(** X2.  A run never adds, removes or reorders documents and never changes
    a document's id, file, name or size; it leaves the policy text and the
    applicant form as they were. *)
Theorem run_keeps_the_queue {L : Lib} (st0 : AppState.t) :
  List.map identity (AppState.documents (Run.state (runAnalysis st0)))
  = List.map identity (AppState.documents st0) /\
  AppState.policyText (Run.state (runAnalysis st0)) = AppState.policyText st0 /\
  AppState.applicantForm (Run.state (runAnalysis st0)) = AppState.applicantForm st0.
Proof.
  destruct (AppState.documents st0) as [|doc0 docs0] eqn:Hdocs.
  - unfold runAnalysis. rewrite Hdocs. cbn. rewrite Hdocs. repeat split.
  - assert (Hd : AppState.documents st0 <> []) by (rewrite Hdocs; discriminate).
    destruct (ensureWorker st0) as [[worker st1]|e] eqn:Hw.
    + destruct (runAnalysis_state st0 st1 worker Hd Hw) as (Hdoc & Hp & Ha & _).
      rewrite Hdoc, settle_all_identity, Hdocs. repeat split; assumption.
    + rewrite (runAnalysis_rejected st0 e Hd Hw). cbn. rewrite Hdocs. repeat split.
Qed.







(** X6.  A run on documents none of which is "done" collects exactly one
    extraction per recognised document, in the order of the documents. *)
Theorem first_run_collects_once {L : Lib} (st0 st1 : AppState.t) (worker : Worker) :
  AppState.documents st0 <> [] ->
  ensureWorker st0 = inl (worker, st1) ->
  Forall (fun doc => UploadedDocument.status doc <> StatusDone) (AppState.documents st0) ->
  processedDocsOf st0 = Some (freshExtractions worker (AppState.documents st0)) /\
  List.length (freshExtractions worker (AppState.documents st0))
  = List.length
      (List.filter
         (fun doc => match recognize worker (UploadedDocument.file doc) with
                     | inl _ => true
                     | inr _ => false
                     end)
         (AppState.documents st0)).
Proof.
  intros Hd Hw Hnone. split.
  - rewrite (processedDocsOf_eq st0 worker st1 Hd Hw).
    replace (existingExtractions (AppState.documents st0)) with (@nil DocumentExtraction.t);
      [reflexivity|].
    unfold existingExtractions. clear Hd Hw.
    induction Hnone as [|doc docs Hdoc _ IH]; [reflexivity|].
    cbn [List.filter]. unfold isDoneWithExtraction at 1.
    destruct (UploadedDocument.status doc); try exact IH. contradiction.
  - unfold freshExtractions. clear.
    induction (AppState.documents st0) as [|doc docs IH]; [reflexivity|].
    cbn [flat_map List.filter].
    destruct (recognize worker (UploadedDocument.file doc)); cbn; rewrite IH; reflexivity.
Qed.

Lemma first_run_sample :
  processedDocsOf (L := Sample.lib)
    (Sample.state [Sample.pendingDocument "d1" "P<UTOPIA";
                   Sample.pendingDocument "d2" ""] "{}")
  = Some (freshExtractions (L := Sample.lib) tt
            [Sample.pendingDocument "d1" "P<UTOPIA"; Sample.pendingDocument "d2" ""]) /\
  List.length
    (freshExtractions (L := Sample.lib) tt
       [Sample.pendingDocument "d1" "P<UTOPIA"; Sample.pendingDocument "d2" ""])
  = 1.
Proof.
  apply (first_run_collects_once (L := Sample.lib)
           (Sample.state [Sample.pendingDocument "d1" "P<UTOPIA";
                          Sample.pendingDocument "d2" ""] "{}")
           (setWorkerRef (L := Sample.lib) (Some tt)
              (Sample.state [Sample.pendingDocument "d1" "P<UTOPIA";
                             Sample.pendingDocument "d2" ""] "{}"))
           tt).
  - discriminate.
  - reflexivity.
  - repeat constructor; discriminate.
Defined.

(** X7.  The worker a run has used stays in the worker reference, and the
    next call of [ensureWorker] returns it without creating one and without
    touching the state. *)
Theorem worker_is_kept {L : Lib} (st0 st1 : AppState.t) (worker : Worker) :
  AppState.documents st0 <> [] ->
  ensureWorker st0 = inl (worker, st1) ->
  AppState.workerRef (Run.state (runAnalysis st0)) = Some worker /\
  ensureWorker (Run.state (runAnalysis st0)) = inl (worker, Run.state (runAnalysis st0)).
Proof.
  intros Hd Hw.
  destruct (runAnalysis_state st0 st1 worker Hd Hw) as (_ & _ & _ & Href & _).
  split; [exact Href|]. unfold ensureWorker. rewrite Href. reflexivity.
Qed.

Lemma worker_is_kept_sample :
  let st0 := Sample.state [Sample.pendingDocument "d1" "P<UTOPIA"] "{}" in
  AppState.workerRef (Run.state (runAnalysis (L := Sample.lib) st0)) = Some tt /\
  ensureWorker (Run.state (runAnalysis (L := Sample.lib) st0))
  = inl (tt, Run.state (runAnalysis (L := Sample.lib) st0)).
Proof.
  apply (worker_is_kept (L := Sample.lib)
           (Sample.state [Sample.pendingDocument "d1" "P<UTOPIA"] "{}")
           (setWorkerRef (L := Sample.lib) (Some tt)
              (Sample.state [Sample.pendingDocument "d1" "P<UTOPIA"] "{}"))
           tt).
  - discriminate.
  - reflexivity.
Defined.

(** X8.  When there is no worker yet and creating one throws, the run is
    rejected with what was thrown: the report has been cleared, no toast is
    raised (the former one stays), no document is touched, and [processing]
    is false again. *)
Theorem worker_failure_rejects_run {L : Lib} (st0 : AppState.t) (e : Thrown) :
  AppState.documents st0 <> [] ->
  AppState.workerRef st0 = None ->
  createWorker = inr e ->
  let run := runAnalysis st0 in
  Run.completion run = Rejected AtEnsureWorker e /\
  Run.toasts run = [] /\
  AppState.report (Run.state run) = None /\
  AppState.toast (Run.state run) = AppState.toast st0 /\
  AppState.documents (Run.state run) = AppState.documents st0 /\
  AppState.processing (Run.state run) = false.
Proof.
  intros Hd Href Hc. cbv zeta.
  assert (Hw : ensureWorker st0 = inr e) by (unfold ensureWorker; rewrite Href, Hc; reflexivity).
  rewrite (runAnalysis_rejected st0 e Hd Hw). repeat split.
Qed.

Lemma worker_failure_sample :
  let run := runAnalysis (L := Sample.offline) Sample.offlineState in
  Run.completion run = Rejected AtEnsureWorker (ErrorObject "Failed to fetch") /\
  Run.toasts run = [] /\
  AppState.report (Run.state run) = None /\
  AppState.toast (Run.state run) = Some completeToast /\
  AppState.documents (Run.state run) = AppState.documents Sample.offlineState /\
  AppState.processing (Run.state run) = false.
Proof.
  apply (worker_failure_rejects_run (L := Sample.offline) Sample.offlineState
           (ErrorObject "Failed to fetch"));
    [discriminate | reflexivity | reflexivity].
Defined.

(** X9.  After a run, the toast in the state is the last toast the run
    raised, and the former toast when it raised none. *)
Theorem toast_left_is_last_raised {L : Lib} (st0 : AppState.t) :
  AppState.toast (Run.state (runAnalysis st0))
  = List.last (List.map Some (Run.toasts (runAnalysis st0))) (AppState.toast st0).
Proof.
  unfold runAnalysis.
  destruct (AppState.documents st0) as [|doc0 docs0] eqn:Hdocs; [reflexivity|].
  unfold analysisBody. rewrite ensureWorker_after_resets.
  destruct (ensureWorker st0) as [[worker st1]|e] eqn:Hw; [|reflexivity].
  apply ensureWorker_inl in Hw. subst st1.
  unfold collectExtractions. rewrite processDocuments_exact.
  destruct (existingExtractions (AppState.documents st0)
              ++ freshExtractions worker (AppState.documents st0))%list
    as [|d ds]; [reflexivity|].
  unfold resolvePolicy. destruct (parsePolicy (AppState.policyText st0)); reflexivity.
Qed.

(** X10.  In a run that has extractions and whose policy text does not
    parse, the "Policy Error" toast is raised and then replaced within the
    run: the toast left in the state is "Analysis Complete". *)
Theorem policy_error_toast_is_replaced {L : Lib}
  (st0 : AppState.t) (d : DocumentExtraction.t) (ds : list DocumentExtraction.t) :
  processedDocsOf st0 = Some (d :: ds) ->
  parsePolicy (AppState.policyText st0) = None ->
  In policyErrorToast (Run.toasts (runAnalysis st0)) /\
  AppState.toast (Run.state (runAnalysis st0)) = Some completeToast.
Proof.
  intros Hp Hparse.
  pose proof (runAnalysis_by_cases st0) as H. cbv zeta in H. rewrite Hp, Hparse in H.
  destruct H as (_ & Ht & _ & Hl & _). rewrite Hl. split; [left; reflexivity|exact Ht].
Qed.

Lemma policy_error_toast_sample :
  In policyErrorToast
    (Run.toasts (runAnalysis (L := Sample.lib)
       (Sample.state [Sample.pendingDocument "d1" "P<UTOPIA"] "not json"))) /\
  AppState.toast
    (Run.state (runAnalysis (L := Sample.lib)
       (Sample.state [Sample.pendingDocument "d1" "P<UTOPIA"] "not json")))
  = Some completeToast.
Proof.
  apply (policy_error_toast_is_replaced (L := Sample.lib)
           (Sample.state [Sample.pendingDocument "d1" "P<UTOPIA"] "not json")
           (Sample.extract "P<UTOPIA" None) []);
    reflexivity.
Defined.

(** ** Further properties: strings and cross-checks *)

Section StringFacts.

Variable upperOther : JsString.t -> JsString.t.













Lemma trimStart_empty_iff s : JsString.trimStart s = "" <-> blank s = true.
Proof.
  change (JsString.lit "") with (@nil N).
  induction s as [|c s IH]; cbn [JsString.trimStart blank]; [tauto|].
  destruct (JsString.isWhiteSpace c); cbn [andb]; [exact IH|].
  split; discriminate.
Qed.

(** What [trimStart] leaves is empty or starts with a code unit that is not
    white space; [trimEnd] keeps such a string non-empty. *)
Lemma trimStart_head s :
  JsString.trimStart s = ""
  \/ exists c r, JsString.trimStart s = c :: r /\ JsString.isWhiteSpace c = false.
Proof.
  change (JsString.lit "") with (@nil N).
  induction s as [|c s IH]; cbn [JsString.trimStart]; [now left|].
  destruct (JsString.isWhiteSpace c) eqn:E; [exact IH|]. right. now exists c, s.
Qed.

Lemma trimEnd_head c r :
  JsString.isWhiteSpace c = false -> JsString.trimEnd (c :: r) <> "".
Proof.
  change (JsString.lit "") with (@nil N).
  intros E. cbn [JsString.trimEnd]. rewrite E.
  destruct (JsString.trimEnd r); discriminate.
Qed.

Lemma trim_empty_iff s : JsString.trim s = "" <-> blank s = true.
Proof.
  unfold JsString.trim. rewrite <- trimStart_empty_iff. split.
  - intros H. destruct (trimStart_head s) as [E|(c & r & E & Hc)]; [exact E|].
    rewrite E in H. now apply trimEnd_head in H.
  - intros ->. reflexivity.
Qed.

Lemma blank_joined a b : blank (a ++ " " ++ b) = blank a && blank b.
Proof.
  unfold JsString.concat. change (JsString.lit " ") with [0x20%N].
  induction a as [|c a IH]; [reflexivity|].
  cbn [app blank] in IH |- *. rewrite IH. now rewrite andb_assoc.
Qed.

End StringFacts.





(** X13.  The status of the fullName check grows with the similarity: a
    greater or equal similarity never gives a worse status (fail, warning,
    pass in that order). *)
Theorem nameStatus_monotone (s1 s2 : float) :
  (s1 <=? s2)%float = true ->
  statusRank (nameStatus s1) <= statusRank (nameStatus s2).
Proof.
  intros Hle. unfold nameStatus, JsNumber.gt.
  destruct (0.75 <? s1)%float eqn:E1.
  - rewrite (FloatOrder.ltb_leb_trans _ _ _ E1 Hle). reflexivity.
  - destruct (0.4 <? s1)%float eqn:E2.
    + rewrite (FloatOrder.ltb_leb_trans _ _ _ E2 Hle).
      destruct (0.75 <? s2)%float; cbn; lia.
    + destruct (0.75 <? s2)%float, (0.4 <? s2)%float; cbn; lia.
Qed.

Lemma nameStatus_monotone_sample :
  statusRank (nameStatus 0.5) <= statusRank (nameStatus 0.8).
Proof. apply (nameStatus_monotone 0.5 0.8). reflexivity. Defined.

(** X14.  A run pushes at most one check per field: the field names of the
    cross-checks are distinct, and there are at most four checks. *)
Theorem one_check_per_field {L : Lib}
  (applicant : ApplicantProfile.t) (bestDoc : DocumentExtraction.t) :
  NoDup (List.map ApplicantCheck.field (crossChecks applicant bestDoc)) /\
  List.length (crossChecks applicant bestDoc) <= 4.
Proof.
  rewrite <- (length_map ApplicantCheck.field), crossChecks_fields. split.
  - apply NoDup_filter. repeat constructor; simpl; intuition discriminate.
  - apply (filter_length_le _
             (List.map JsString.lit
                ["fullName"; "dateOfBirth"; "passportNumber"; "nationality"])).
Qed.

(** X15.  The full name of the applicant is empty exactly when the given
    names and the surname of the form are both blank (white space only). *)
Theorem fullName_is_empty_iff_blank (applicantForm : ApplicantForm.t) :
  ApplicantProfile.fullName (makeApplicant applicantForm) = "" <->
  blank (ApplicantForm.givenNames applicantForm) = true /\
  blank (ApplicantForm.surname applicantForm) = true.
Proof.
  cbn [makeApplicant ApplicantProfile.fullName].
  rewrite trim_empty_iff, blank_joined. apply andb_true_iff.
Qed.

(** A given name made of a no-break space is blank: the full name is
    empty. *)
Example fullName_of_no_break_space :
  ApplicantProfile.fullName (makeApplicant (Sample.form "" [0xA0%N])) = "".
Proof. reflexivity. Qed.

(** X16.  The fullName check is pushed exactly when the given names or the
    surname of the best document have a character that is not white space;
    a missing field counts as blank. *)
Theorem fullName_check_iff_document_has_name {L : Lib}
  (applicant : ApplicantProfile.t) (bestDoc : DocumentExtraction.t) :
  checkFor "fullName" (crossChecks applicant bestDoc) <> None <->
  blank (orEmpty (valueOf (Fields.givenNames (DocumentExtraction.fields bestDoc)))) = false \/
  blank (orEmpty (valueOf (Fields.surname (DocumentExtraction.fields bestDoc)))) = false.
Proof.
  rewrite fullName_emitted_iff. unfold docName. cbv zeta.
  rewrite trim_empty_iff, blank_joined.
  destruct (blank (orEmpty (valueOf (Fields.givenNames (DocumentExtraction.fields bestDoc))))),
           (blank (orEmpty (valueOf (Fields.surname (DocumentExtraction.fields bestDoc)))));
    cbn; intuition congruence.
Qed.

(** ** Further properties: the queue of documents *)

Section QueueFacts.

Context {L : Lib} {F : FileApi}.

Lemma nextDocsFrom_files randomUUID files : forall k,
  List.map UploadedDocument.file (nextDocsFrom randomUUID k files) = files.
Proof.
  induction files as [|file files IH]; intros k; [reflexivity|].
  cbn [nextDocsFrom List.map UploadedDocument.file]. now rewrite IH.
Qed.

Lemma nextDocsFrom_ids randomUUID files : forall k,
  List.map UploadedDocument.id (nextDocsFrom randomUUID k files)
  = List.map randomUUID (seq k (List.length files)).
Proof.
  induction files as [|file files IH]; intros k; [reflexivity|].
  cbn [nextDocsFrom List.map UploadedDocument.id List.length seq]. now rewrite IH.
Qed.

Lemma nextDocsFrom_pending randomUUID files : forall k,
  Forall (fun doc => UploadedDocument.status doc = StatusPending /\
                     UploadedDocument.text doc = None /\
                     UploadedDocument.extraction doc = None /\
                     UploadedDocument.error doc = None /\
                     UploadedDocument.name doc = fileName (UploadedDocument.file doc) /\
                     UploadedDocument.size doc = fileSize (UploadedDocument.file doc))
    (nextDocsFrom randomUUID k files).
Proof.
  induction files as [|file files IH]; intros k; constructor.
  - repeat split.
  - apply IH.
Qed.

Lemma filter_other_ids id (documents : list UploadedDocument.t) :
  ~ In id (List.map UploadedDocument.id documents) ->
  List.filter (fun doc => negb (JsString.eqb (UploadedDocument.id doc) id)) documents
  = documents.
Proof.
  induction documents as [|doc documents IH]; intros Hn; [reflexivity|].
  cbn [List.filter]. cbn [List.map In] in Hn.
  destruct (JsStringFacts.eqb_spec (UploadedDocument.id doc) id) as [E|E]; [tauto|].
  cbn [negb]. rewrite IH; [reflexivity|tauto].
Qed.

Lemma filter_same_id id (documents : list UploadedDocument.t) :
  Forall (fun doc => UploadedDocument.id doc = id) documents ->
  List.filter (fun doc => negb (JsString.eqb (UploadedDocument.id doc) id)) documents = [].
Proof.
  induction 1 as [|doc documents Hdoc _ IH]; [reflexivity|].
  cbn [List.filter]. rewrite Hdoc, JsStringFacts.eqb_refl. exact IH.
Qed.

End QueueFacts.

(** X17.  Adding files keeps the documents of the queue as they are and
    appends one document per file, in the order of the files, with the
    identifiers drawn in that order; each new document is "pending", with
    the name and size of its file and no text, extraction or error; the
    toast tells how many were added. *)
Theorem handleFiles_appends_pending_documents {L : Lib} {F : FileApi}
  (randomUUID : nat -> JsString.t) (files : list File) (st : AppState.t) :
  exists nextDocs,
    AppState.documents (handleFiles randomUUID files st)
    = (AppState.documents st ++ nextDocs)%list /\
    List.map UploadedDocument.file nextDocs = files /\
    List.map UploadedDocument.id nextDocs
    = List.map randomUUID (seq 0 (List.length files)) /\
    Forall (fun doc => UploadedDocument.status doc = StatusPending /\
                       UploadedDocument.text doc = None /\
                       UploadedDocument.extraction doc = None /\
                       UploadedDocument.error doc = None /\
                       UploadedDocument.name doc = fileName (UploadedDocument.file doc) /\
                       UploadedDocument.size doc = fileSize (UploadedDocument.file doc))
      nextDocs /\
    AppState.toast (handleFiles randomUUID files st)
    = Some (ToastMessage.mk "Files Added"
              (JsNumber.decimal (Z.of_nat (List.length files))
                 ++ " document(s) queued for analysis.")) /\
    AppState.report (handleFiles randomUUID files st) = AppState.report st.
Proof.
  exists (nextDocsFrom randomUUID 0 files).
  split; [reflexivity|]. split; [apply nextDocsFrom_files|].
  split; [apply nextDocsFrom_ids|]. split; [apply nextDocsFrom_pending|].
  split; [|reflexivity].
  cbn [handleFiles setToast AppState.toast]. unfold filesAddedToast.
  rewrite <- (length_map UploadedDocument.file), nextDocsFrom_files. reflexivity.
Qed.

(** X18.  Adding one file and removing the document by its identifier gives
    the queue back, when the identifier drawn is not already in the
    queue. *)
Theorem add_then_remove_restores_queue {L : Lib} {F : FileApi}
  (randomUUID : nat -> JsString.t) (file : File) (st : AppState.t) :
  ~ In (randomUUID 0) (List.map UploadedDocument.id (AppState.documents st)) ->
  AppState.documents (removeDocument (randomUUID 0) (handleFiles randomUUID [file] st))
  = AppState.documents st.
Proof.
  intros Hfresh.
  cbn [removeDocument handleFiles setDocuments setToast AppState.documents nextDocsFrom].
  rewrite filter_app, (filter_other_ids _ _ Hfresh).
  cbn [List.filter UploadedDocument.id]. rewrite JsStringFacts.eqb_refl. cbn [negb].
  apply app_nil_r.
Qed.

Lemma add_then_remove_sample :
  AppState.documents
    (removeDocument (L := Sample.lib) (Sample.uuid 0)
       (handleFiles (L := Sample.lib) (F := Sample.files) Sample.uuid
          [JsString.lit "P<UTOPIA"]
          (Sample.state [Sample.pendingDocument "d1" "P<UTOPIA"] "{}")))
  = [Sample.pendingDocument "d1" "P<UTOPIA"].
Proof.
  apply (add_then_remove_restores_queue (L := Sample.lib) (F := Sample.files)
           Sample.uuid (JsString.lit "P<UTOPIA")
           (Sample.state [Sample.pendingDocument "d1" "P<UTOPIA"] "{}")).
  simpl. intuition discriminate.
Defined.

(** X19.  When the last documents of the queue are removed, the queue is
    empty and a run on it returns at its guard: it raises the "No Documents"
    toast only, it does not touch [processing], and the report of a former
    run stays in the state. *)
Theorem report_survives_emptied_queue {L : Lib} (id : JsString.t) (st : AppState.t) :
  Forall (fun doc => UploadedDocument.id doc = id) (AppState.documents st) ->
  let emptied := removeDocument id st in
  let run := runAnalysis emptied in
  AppState.documents emptied = [] /\
  Run.toasts run = [noDocumentsToast] /\
  Run.completion run = Returned /\
  AppState.report (Run.state run) = AppState.report st /\
  AppState.processing (Run.state run) = AppState.processing st.
Proof.
  intros Hall. cbv zeta.
  assert (He : AppState.documents (removeDocument id st) = [])
    by (cbn [removeDocument setDocuments AppState.documents]; now apply filter_same_id).
  unfold runAnalysis. rewrite He. repeat split.
Qed.

Lemma report_survives_sample :
  let emptied :=
    removeDocument (L := Sample.lib) "d1"
      (Sample.stateAfterRun [Sample.doneDocument "d1" "P<UTOPIA"]) in
  let run := runAnalysis (L := Sample.lib) emptied in
  AppState.documents emptied = [] /\
  Run.toasts run = [noDocumentsToast] /\
  Run.completion run = Returned /\
  AppState.report (Run.state run) = Some ([], JsString.lit "{}", Sample.jane, []) /\
  AppState.processing (Run.state run) = false.
Proof.
  apply (report_survives_emptied_queue (L := Sample.lib) "d1"
           (Sample.stateAfterRun [Sample.doneDocument "d1" "P<UTOPIA"])).
  repeat constructor.
Defined.

(** X20.  Removing a document whose identifier is not in the queue changes
    no document, and removing twice is removing once. *)
Theorem removeDocument_of_absent_id {L : Lib} (id : JsString.t) (st : AppState.t) :
  (~ In id (List.map UploadedDocument.id (AppState.documents st)) ->
   AppState.documents (removeDocument id st) = AppState.documents st) /\
  ~ In id (List.map UploadedDocument.id (AppState.documents (removeDocument id st))) /\
  AppState.documents (removeDocument id (removeDocument id st))
  = AppState.documents (removeDocument id st).
Proof.
  assert (Hgone : ~ In id (List.map UploadedDocument.id
                             (AppState.documents (removeDocument id st)))).
  { cbn [removeDocument setDocuments AppState.documents].
    intros Hin. apply in_map_iff in Hin. destruct Hin as (doc & Hid & Hin).
    apply filter_In in Hin. destruct Hin as [_ Hneq].
    rewrite Hid, JsStringFacts.eqb_refl in Hneq. discriminate. }
  split; [|split].
  - intros Hn. cbn [removeDocument setDocuments AppState.documents].
    now apply filter_other_ids.
  - exact Hgone.
  - cbn [removeDocument setDocuments AppState.documents] in Hgone |- *.
    now apply filter_other_ids.
Qed.

(** ** Further properties: edges of the name check and of the policy *)

(** X21.  A similarity that is not a number makes the fullName check a
    fail; its confidence [Math.round(s * 100)] is not a number either, and
    the percentage of its detail is what [Number::toString] writes for
    it. *)
Theorem nan_similarity_is_a_fail (s : float) :
  Prim2SF s = S754_nan ->
  nameStatus s = Fail /\
  Prim2SF (JsNumber.Math_round (s * 100)%float) = S754_nan /\
  forall toString, JsNumber.toFixed1 toString (s * 100)%float = toString (s * 100)%float.
Proof.
  intros Hs.
  assert (Hx : Prim2SF (s * 100)%float = S754_nan) by (rewrite mul_spec, Hs; reflexivity).
  split; [|split].
  - unfold nameStatus, JsNumber.gt. rewrite !FloatAxioms.ltb_spec, Hs.
    unfold SFltb, SFcompare.
    destruct (Prim2SF 0.75), (Prim2SF 0.4); reflexivity.
  - unfold JsNumber.Math_round. rewrite Hx. exact Hx.
  - intros toString. unfold JsNumber.toFixed1. rewrite Hx. reflexivity.
Qed.

Lemma nan_similarity_sample :
  nameStatus nan = Fail /\
  Prim2SF (JsNumber.Math_round (nan * 100)%float) = S754_nan /\
  forall toString, JsNumber.toFixed1 toString (nan * 100)%float = toString (nan * 100)%float.
Proof. apply (nan_similarity_is_a_fail nan). reflexivity. Defined.

(** X22.  In a run that has extractions and whose policy text parses,
    eligibility is evaluated under the parsed policy, and the only toast
    raised is "Analysis Complete". *)
Theorem parsed_policy_is_used {L : Lib}
  (st0 : AppState.t) (d : DocumentExtraction.t) (ds : list DocumentExtraction.t)
  (policy : Policy) :
  processedDocsOf st0 = Some (d :: ds) ->
  parsePolicy (AppState.policyText st0) = Some policy ->
  let run := runAnalysis st0 in
  let applicant := makeApplicant (AppState.applicantForm st0) in
  (exists bestDoc,
     selectBestDoc (d :: ds) = Some bestDoc /\
     AppState.report (Run.state run)
     = Some (buildReport (d :: ds)
               (evaluateEligibility applicant (d :: ds) policy) applicant
               (crossChecks applicant bestDoc))) /\
  Run.toasts run = [completeToast] /\
  Run.completion run = Returned.
Proof.
  intros Hp Hparse. cbv zeta.
  pose proof (runAnalysis_by_cases st0) as H. cbv zeta in H. rewrite Hp in H.
  destruct H as (Hr & _ & _ & Ht & Hc).
  unfold policyOf, resolvePolicy in Hr. rewrite Hparse in Hr, Ht.
  split; [|split; [exact Ht|exact Hc]].
  eexists. split; [reflexivity|exact Hr].
Qed.

Lemma parsed_policy_sample :
  let st0 := Sample.state [Sample.pendingDocument "d1" "P<UTOPIA"] "{ strict }" in
  let run := runAnalysis (L := Sample.lib) st0 in
  let applicant := makeApplicant (AppState.applicantForm st0) in
  (exists bestDoc,
     selectBestDoc [Sample.extract "P<UTOPIA" None] = Some bestDoc /\
     AppState.report (Run.state run)
     = Some ([Sample.extract "P<UTOPIA" None], JsString.lit "{ strict }", applicant,
             crossChecks (L := Sample.lib) applicant bestDoc)) /\
  Run.toasts run = [completeToast] /\
  Run.completion run = Returned.
Proof.
  apply (parsed_policy_is_used (L := Sample.lib)
           (Sample.state [Sample.pendingDocument "d1" "P<UTOPIA"] "{ strict }")
           (Sample.extract "P<UTOPIA" None) [] (JsString.lit "{ strict }"));
    reflexivity.
Defined.
